(** * The Pulumi program of [index.ts] as a resource-descriptor graph

    [index.ts] has no control flow: it evaluates twelve [new X(name, args)]
    expressions in order and exports three values.  The only inputs are the
    stack name returned by [pulumi.getStack()] and the clock reading returned
    by [Date.now()].  This file embeds

    - JavaScript strings as [string], [Date.now()] as a [Z] rendered in
      decimal, [toUpperCase] on ASCII text, and [JSON.stringify] on the object
      literals the program builds;
    - Pulumi's [Output<string>] as a small expression type with attribute
      references, [pulumi.interpolate] and [pulumi.all(..).apply(..)];
    - each constructor argument object as an association list in source
      order; and the program as the list of descriptors in the order the
      constructors run.

    The engine that diffs, creates and destroys resources is not part of the
    repository and is not modelled; where a property needs the values the
    engine provides after creation, they are a function [rho] from a resource
    and an attribute name to a string. *)

From Stdlib Require Import ZArith List String Ascii Bool Lia.
From Stdlib Require Import Decimal DecimalString DecimalZ.
From Stdlib Require Import Relations.
Import ListNotations.

Set Warnings "-register-all".

Open Scope list_scope.
Open Scope string_scope.

(* ------------------------------------------------------------------------ *)
(** ** JavaScript text                                                       *)
(* ------------------------------------------------------------------------ *)

Module JS.

(** The double-quote and line-feed characters, by code. *)
Definition dquote : string := String (ascii_of_nat 34) EmptyString.
Definition nl : string := String (ascii_of_nat 10) EmptyString.

(** [`${n}`] for an integral number: the decimal digits, with a leading minus
    sign below zero.  [Date.now()] is integral and, by the range of time
    values (magnitude at most 8.64e15), never reaches the exponent notation
    JavaScript switches to at 1e21. *)
Definition number_to_string (n : Z) : string :=
  NilEmpty.string_of_int (Z.to_int n).

(** [String.prototype.toUpperCase], on ASCII letters; other bytes are kept. *)
Definition upper_char (c : ascii) : ascii :=
  let n := nat_of_ascii c in
  if (97 <=? n)%nat && (n <=? 122)%nat then ascii_of_nat (n - 32) else c.

Fixpoint toUpperCase (s : string) : string :=
  match s with
  | EmptyString => EmptyString
  | String c s' => String (upper_char c) (toUpperCase s')
  end.

(** Joining the lines of a multi-line template literal. *)
Fixpoint lines (l : list string) : string :=
  match l with
  | [] => EmptyString
  | x :: l' => x ++ nl ++ lines l'
  end.

End JS.

(* ------------------------------------------------------------------------ *)
(** ** JSON documents and [JSON.stringify]                                   *)
(* ------------------------------------------------------------------------ *)

Module JSON.

(** The values the program's policy documents are made of.  An object keeps
    its keys in insertion order, as JavaScript does for non-numeric keys;
    [JNull] is what [JSON.stringify] prints for an [undefined] array
    element. *)
Inductive t : Type :=
| JNull
| JStr (s : string)
| JArr (items : list t)
| JObj (fields : list (string * t)).

Definition hex_digit (n : nat) : ascii :=
  nth n ["0"; "1"; "2"; "3"; "4"; "5"; "6"; "7";
         "8"; "9"; "a"; "b"; "c"; "d"; "e"; "f"]%char "0"%char.

(** The escape of one character inside a JSON string (QuoteJSONString). *)
Definition escape_char (c : ascii) : string :=
  let n := nat_of_ascii c in
  if (n =? 34)%nat then "\" ++ JS.dquote
  else if (n =? 92)%nat then "\\"
  else if (n =? 8)%nat then "\b"
  else if (n =? 9)%nat then "\t"
  else if (n =? 10)%nat then "\n"
  else if (n =? 12)%nat then "\f"
  else if (n =? 13)%nat then "\r"
  else if (n <? 32)%nat then
    "\u00" ++ String (hex_digit (n / 16)) (String (hex_digit (n mod 16)) EmptyString)
  else String c EmptyString.

Fixpoint escape (s : string) : string :=
  match s with
  | EmptyString => EmptyString
  | String c s' => escape_char c ++ escape s'
  end.

Definition quote (s : string) : string := JS.dquote ++ escape s ++ JS.dquote.

(** [JSON.stringify(v)] without indentation: no white space, members
    separated by commas, keys quoted. *)
Fixpoint stringify (v : t) : string :=
  match v with
  | JNull => "null"
  | JStr s => quote s
  | JArr items =>
      "[" ++
      (fix elems (l : list t) : string :=
         match l with
         | [] => EmptyString
         | x :: l' =>
             match l' with
             | [] => stringify x
             | _ :: _ => stringify x ++ "," ++ elems l'
             end
         end) items ++ "]"
  | JObj fields =>
      "{" ++
      (fix members (l : list (string * t)) : string :=
         match l with
         | [] => EmptyString
         | (k, x) :: l' =>
             match l' with
             | [] => quote k ++ ":" ++ stringify x
             | _ :: _ => quote k ++ ":" ++ stringify x ++ "," ++ members l'
             end
         end) fields ++ "}"
  end.

(** Member access [o.k] on a document. *)
Definition field (k : string) (v : t) : option t :=
  match v with
  | JObj fields =>
      option_map snd (find (fun kv => String.eqb (fst kv) k) fields)
  | _ => None
  end.

End JSON.

(* ------------------------------------------------------------------------ *)
(** ** Pulumi values                                                         *)
(* ------------------------------------------------------------------------ *)

(** [Output<string>]: a string known when the program runs, an attribute of a
    declared resource that the engine fills in after creation, a
    [pulumi.interpolate] template, or [pulumi.all([..]).apply(f)]. A resource
    is referred to by its logical name, the first constructor argument. *)
Inductive Output : Type :=
| Lit (s : string)
| Attr (resource : string) (attribute : string)
| Interpolate (head : string) (holes : list (Output * string))
| AllApply (args : list Output) (f : list string -> string).

(** A property of a constructor's argument object. *)
Inductive Value : Type :=
| VOut (o : Output)
| VBool (b : bool)
| VNum (n : Z)
| VArr (items : list Value)
| VObj (fields : list (string * Value)).

Definition str (s : string) : Value := VOut (Lit s).

(** The resource classes the program instantiates. *)
Inductive ResourceType : Type :=
| aws_s3_Bucket
| aws_s3_BucketPolicy
| aws_iam_Role
| aws_iam_RolePolicy
| snowflake_Warehouse
| snowflake_Database
| snowflake_Schema
| snowflake_StorageIntegration
| snowflake_FileFormat
| snowflake_Stage
| snowflake_Table.

(** One [new X(name, args)]. *)
Record Resource : Type := mkResource {
  rtype : ResourceType;
  rname : string;
  rargs : list (string * Value)
}.

(** [r.a], an output attribute of a resource declared in the program. *)
Definition attr (r : Resource) (a : string) : Output := Attr (rname r) a.

(** [o.k] on an object literal, and [args.k] on a descriptor. *)
Definition lookup (k : string) (fields : list (string * Value)) : option Value :=
  option_map snd (find (fun kv => String.eqb (fst kv) k) fields).

Definition prop (k : string) (r : Resource) : option Value :=
  lookup k (rargs r).

(** The attribute references an output is computed from. *)
Fixpoint refs (o : Output) : list (string * string) :=
  match o with
  | Lit _ => []
  | Attr r a => [(r, a)]
  | Interpolate _ holes =>
      (fix go (l : list (Output * string)) : list (string * string) :=
         match l with
         | [] => []
         | (h, _) :: l' => (refs h ++ go l')%list
         end) holes
  | AllApply args _ =>
      (fix go (l : list Output) : list (string * string) :=
         match l with
         | [] => []
         | h :: l' => (refs h ++ go l')%list
         end) args
  end.

Fixpoint value_refs (v : Value) : list (string * string) :=
  match v with
  | VOut o => refs o
  | VBool _ | VNum _ => []
  | VArr items =>
      (fix go (l : list Value) : list (string * string) :=
         match l with
         | [] => []
         | x :: l' => (value_refs x ++ go l')%list
         end) items
  | VObj fields =>
      (fix go (l : list (string * Value)) : list (string * string) :=
         match l with
         | [] => []
         | (_, x) :: l' => (value_refs x ++ go l')%list
         end) fields
  end.

(** The value of an output once the engine has created the resources it
    refers to; [rho r a] is the provisioned attribute [a] of resource [r]. *)
Fixpoint resolve (rho : string -> string -> string) (o : Output) : string :=
  match o with
  | Lit s => s
  | Attr r a => rho r a
  | Interpolate head holes =>
      head ++
      (fix go (l : list (Output * string)) : string :=
         match l with
         | [] => EmptyString
         | (h, s) :: l' => resolve rho h ++ s ++ go l'
         end) holes
  | AllApply args f => f (map (resolve rho) args)
  end.

(** Whether an input is a plain string, fixed when the program runs. *)
Definition is_literal (o : Output) : bool :=
  match o with
  | Lit _ => true
  | _ => false
  end.

(* ------------------------------------------------------------------------ *)
(** ** The program                                                           *)
(* ------------------------------------------------------------------------ *)

Definition projectName : string := "data-pipeline".

(** The [Resource] list of the two policy documents that depend on the
    bucket's ARN.  The callbacks destructure [([bucketArn]) => ..]: the first
    element of the resolved array, [undefined] when there is none. *)
Definition arn_item (bucketArn : option string) : JSON.t :=
  match bucketArn with
  | Some a => JSON.JStr a
  | None => JSON.JNull
  end.

Definition arn_objects (bucketArn : option string) : JSON.t :=
  JSON.JStr (match bucketArn with Some a => a | None => "undefined" end ++ "/*").

Definition bucketPolicyDocument (bucketArn : option string) : JSON.t :=
  JSON.JObj [
    ("Version", JSON.JStr "2012-10-17");
    ("Statement", JSON.JArr [
      JSON.JObj [
        ("Sid", JSON.JStr "AllowSnowflakeAccess");
        ("Effect", JSON.JStr "Allow");
        ("Principal", JSON.JStr "*");
        ("Action", JSON.JArr [JSON.JStr "s3:GetObject";
                              JSON.JStr "s3:GetObjectVersion";
                              JSON.JStr "s3:ListBucket"]);
        ("Resource", JSON.JArr [arn_item bucketArn; arn_objects bucketArn])
      ]
    ])
  ].

Definition assumeRolePolicyDocument : JSON.t :=
  JSON.JObj [
    ("Version", JSON.JStr "2012-10-17");
    ("Statement", JSON.JArr [
      JSON.JObj [
        ("Effect", JSON.JStr "Allow");
        ("Principal", JSON.JObj [
          ("AWS", JSON.JStr "*")
        ]);
        ("Action", JSON.JStr "sts:AssumeRole");
        ("Condition", JSON.JObj [
          ("StringEquals", JSON.JObj [
            ("sts:ExternalId", JSON.JStr "snowflake_external_id")
          ])
        ])
      ]
    ])
  ].

Definition snowflakePolicyDocument (bucketArn : option string) : JSON.t :=
  JSON.JObj [
    ("Version", JSON.JStr "2012-10-17");
    ("Statement", JSON.JArr [
      JSON.JObj [
        ("Effect", JSON.JStr "Allow");
        ("Action", JSON.JArr [JSON.JStr "s3:GetObject";
                              JSON.JStr "s3:GetObjectVersion";
                              JSON.JStr "s3:ListBucket";
                              JSON.JStr "s3:GetBucketLocation"]);
        ("Resource", JSON.JArr [arn_item bucketArn; arn_objects bucketArn])
      ]
    ])
  ].

Section Program.

(** [pulumi.getStack()] and [Date.now()]. *)
Variable environment : string.
Variable now : Z.

(** *** AWS resources *)

Definition dataBucket : Resource :=
  mkResource aws_s3_Bucket (projectName ++ "-bucket") [
    ("bucket", str (projectName ++ "-data-" ++ environment ++ "-"
                      ++ JS.number_to_string now));
    ("forceDestroy", VBool true);
    ("tags", VObj [
      ("Project", str projectName);
      ("Environment", str environment);
      ("ManagedBy", str "Pulumi")
    ])
  ].

Definition bucketPolicy : Resource :=
  mkResource aws_s3_BucketPolicy (projectName ++ "-bucket-policy") [
    ("bucket", VOut (attr dataBucket "id"));
    ("policy", VOut (AllApply [attr dataBucket "arn"] (fun resolved =>
       JSON.stringify (bucketPolicyDocument (hd_error resolved)))))
  ].

Definition snowflakeRole : Resource :=
  mkResource aws_iam_Role (projectName ++ "-snowflake-role") [
    ("name", str (projectName ++ "-snowflake-access-" ++ environment));
    ("assumeRolePolicy", str (JSON.stringify assumeRolePolicyDocument));
    ("tags", VObj [
      ("Project", str projectName);
      ("Environment", str environment);
      ("ManagedBy", str "Pulumi")
    ])
  ].

Definition snowflakePolicy : Resource :=
  mkResource aws_iam_RolePolicy (projectName ++ "-snowflake-policy") [
    ("role", VOut (attr snowflakeRole "id"));
    ("policy", VOut (AllApply [attr dataBucket "arn"] (fun resolved =>
       JSON.stringify (snowflakePolicyDocument (hd_error resolved)))))
  ].

(** *** Snowflake resources *)

Definition warehouse : Resource :=
  mkResource snowflake_Warehouse (projectName ++ "-warehouse") [
    ("name", str (JS.toUpperCase projectName ++ "_WH"));
    ("warehouseSize", str "X-SMALL");
    ("autoSuspend", VNum 60);
    ("autoResume", VBool true);
    ("comment", str "Data pipeline warehouse managed by Pulumi")
  ].

Definition database : Resource :=
  mkResource snowflake_Database (projectName ++ "-database") [
    ("name", str (JS.toUpperCase projectName ++ "_DB"));
    ("comment", str "Data pipeline database managed by Pulumi")
  ].

Definition schema : Resource :=
  mkResource snowflake_Schema (projectName ++ "-schema") [
    ("name", str "RAW");
    ("database", VOut (attr database "name"));
    ("comment", str "Raw data landing schema")
  ].

Definition storageIntegration : Resource :=
  mkResource snowflake_StorageIntegration (projectName ++ "-storage-integration") [
    ("name", str (JS.toUpperCase projectName ++ "_S3_INT"));
    ("type", str "EXTERNAL_STAGE");
    ("storageProvider", str "S3");
    ("enabled", VBool true);
    ("storageAwsRoleArn", VOut (attr snowflakeRole "arn"));
    ("storageAllowedLocations", VArr [
      VOut (Interpolate "s3://" [(attr dataBucket "bucket", "/")])
    ]);
    ("comment", str "S3 storage integration managed by Pulumi")
  ].

Definition csvFileFormat : Resource :=
  mkResource snowflake_FileFormat (projectName ++ "-csv-format") [
    ("name", str "CSV_FORMAT");
    ("database", VOut (attr database "name"));
    ("schema", VOut (attr schema "name"));
    ("formatType", str "CSV");
    ("fieldDelimiter", str ",");
    ("skipHeader", VNum 1);
    ("nullIf", VArr [str "NULL"; str "null"; str ""]);
    ("emptyFieldAsNull", VBool true);
    ("comment", str "CSV file format for data ingestion")
  ].

Definition parquetFileFormat : Resource :=
  mkResource snowflake_FileFormat (projectName ++ "-parquet-format") [
    ("name", str "PARQUET_FORMAT");
    ("database", VOut (attr database "name"));
    ("schema", VOut (attr schema "name"));
    ("formatType", str "PARQUET");
    ("comment", str "Parquet file format for data ingestion")
  ].

Definition s3Stage : Resource :=
  mkResource snowflake_Stage (projectName ++ "-s3-stage") [
    ("name", str "S3_STAGE");
    ("database", VOut (attr database "name"));
    ("schema", VOut (attr schema "name"));
    ("url", VOut (Interpolate "s3://" [(attr dataBucket "bucket", "/raw/")]));
    ("storageIntegration", VOut (attr storageIntegration "name"));
    ("comment", str "External S3 stage managed by Pulumi")
  ].

Definition taxiTable : Resource :=
  mkResource snowflake_Table (projectName ++ "-taxi-table") [
    ("name", str "TAXI_DATA");
    ("database", VOut (attr database "name"));
    ("schema", VOut (attr schema "name"));
    ("columns", VArr [
      VObj [("name", str "VENDOR_ID"); ("type", str "NUMBER")];
      VObj [("name", str "PICKUP_DATETIME"); ("type", str "TIMESTAMP")];
      VObj [("name", str "DROPOFF_DATETIME"); ("type", str "TIMESTAMP")];
      VObj [("name", str "PASSENGER_COUNT"); ("type", str "NUMBER")];
      VObj [("name", str "TRIP_DISTANCE"); ("type", str "FLOAT")];
      VObj [("name", str "PICKUP_LOCATION_ID"); ("type", str "NUMBER")];
      VObj [("name", str "DROPOFF_LOCATION_ID"); ("type", str "NUMBER")];
      VObj [("name", str "FARE_AMOUNT"); ("type", str "FLOAT")];
      VObj [("name", str "TIP_AMOUNT"); ("type", str "FLOAT")];
      VObj [("name", str "TOTAL_AMOUNT"); ("type", str "FLOAT")];
      VObj [("name", str "LOADED_AT"); ("type", str "TIMESTAMP");
            ("default", VObj [("expression", str "CURRENT_TIMESTAMP()")])]
    ]);
    ("comment", str "NYC Taxi trip data loaded from S3")
  ].

(** The descriptors in the order their constructors run. *)
Definition program : list Resource :=
  [ dataBucket; bucketPolicy; snowflakeRole; snowflakePolicy;
    warehouse; database; schema; storageIntegration;
    csvFileFormat; parquetFileFormat; s3Stage; taxiTable ].

(** *** Outputs *)

Definition awsOutputs : list (string * Output) := [
  ("bucketName", attr dataBucket "bucket");
  ("bucketArn", attr dataBucket "arn");
  ("roleArn", attr snowflakeRole "arn");
  ("roleName", attr snowflakeRole "name")
].

Definition snowflakeOutputs : list (string * Output) := [
  ("warehouseName", attr warehouse "name");
  ("databaseName", attr database "name");
  ("schemaName", attr schema "name");
  ("stageName", attr s3Stage "name");
  ("tableName", attr taxiTable "name");
  ("storageIntegrationName", attr storageIntegration "name")
].

Definition rule : string :=
  "================================================================================".

Definition instructions : Output :=
  Interpolate
    (JS.lines [
       "";
       rule;
       "DEPLOYMENT COMPLETE! Next steps:";
       rule;
       "";
       "1. Upload sample data to S3:"
     ] ++ "   aws s3 cp data/sample.csv s3://")
    [ (attr dataBucket "bucket",
       JS.lines [
         "/raw/";
         "";
         "2. Or download NYC Taxi data (1M+ rows):";
         "   wget https://d37ci6vzurychx.cloudfront.net/trip-data/yellow_tripdata_2024-01.parquet"
       ] ++ "   aws s3 cp yellow_tripdata_2024-01.parquet s3://");
      (attr dataBucket "bucket",
       JS.lines [
         "/raw/";
         "";
         "3. Run COPY INTO in Snowflake to load data:"
       ] ++ "   USE WAREHOUSE ");
      (attr warehouse "name", JS.lines [";"] ++ "   USE DATABASE ");
      (attr database "name", JS.lines [";"] ++ "   USE SCHEMA ");
      (attr schema "name",
       JS.lines [
         ";";
         "";
         "   COPY INTO TAXI_DATA";
         "   FROM @S3_STAGE";
         "   FILE_FORMAT = PARQUET_FORMAT";
         "   MATCH_BY_COLUMN_NAME = CASE_INSENSITIVE;";
         "";
         "4. Verify data loaded:";
         "   SELECT COUNT(*) FROM TAXI_DATA;";
         "   -- Should show 1M+ rows loaded in <30 seconds!";
         "";
         rule
       ]) ].

(** What the module exports: an object of outputs, or a single output. *)
Inductive Export : Type :=
| ExportObject (fields : list (string * Output))
| ExportValue (o : Output).

Definition exports : list (string * Export) := [
  ("awsOutputs", ExportObject awsOutputs);
  ("snowflakeOutputs", ExportObject snowflakeOutputs);
  ("instructions", ExportValue instructions)
].

End Program.

(* ------------------------------------------------------------------------ *)
(** ** Reading the descriptors                                               *)
(* ------------------------------------------------------------------------ *)

(** A property that is a plain string. *)
Definition literal (v : option Value) : option string :=
  match v with
  | Some (VOut (Lit s)) => Some s
  | _ => None
  end.

(** The name the cloud object is created under: [bucket] for an S3 bucket,
    [name] for the other classes; [None] when the descriptor gives none and
    the engine picks one. *)
Definition physical_name (r : Resource) : option string :=
  match rtype r with
  | aws_s3_Bucket => literal (prop "bucket" r)
  | _ => literal (prop "name" r)
  end.

Definition is_aws (r : Resource) : bool :=
  match rtype r with
  | aws_s3_Bucket | aws_s3_BucketPolicy | aws_iam_Role | aws_iam_RolePolicy => true
  | _ => false
  end.

Definition is_snowflake (r : Resource) : bool := negb (is_aws r).

(** A column of a table descriptor: its name, its type, and its [default]
    member as written, whatever that member holds. *)
Record Column : Type := mkColumn {
  col_name : option string;
  col_type : option string;
  col_default : option Value
}.

Definition column_of (v : Value) : Column :=
  match v with
  | VObj fields =>
      mkColumn (literal (lookup "name" fields))
               (literal (lookup "type" fields))
               (lookup "default" fields)
  | _ => mkColumn None None None
  end.

(** The elements of [args.columns] as written. *)
Definition raw_columns (r : Resource) : list Value :=
  match prop "columns" r with
  | Some (VArr items) => items
  | _ => []
  end.

Definition columns (r : Resource) : list Column :=
  map column_of (raw_columns r).

(** The keys of an object literal, in the order written. *)
Definition keys (v : Value) : list string :=
  match v with
  | VObj fields => map fst fields
  | _ => []
  end.

(** Whether the column object has a [default] member at all. *)
Definition has_default (c : Column) : bool :=
  match col_default c with
  | Some _ => true
  | None => false
  end.

(** [default.expression], when the default is given as an expression. *)
Definition default_expression (c : Column) : option string :=
  match col_default c with
  | Some (VObj d) => literal (lookup "expression" d)
  | _ => None
  end.

(* ------------------------------------------------------------------------ *)
(** ** The dependency graph                                                  *)
(* ------------------------------------------------------------------------ *)

(** The resources a descriptor refers to through its arguments. *)
Definition deps (r : Resource) : list string :=
  map fst (value_refs (VObj (rargs r))).

Definition mem (n : string) (l : list string) : bool :=
  existsb (String.eqb n) l.

(** Every descriptor has a fresh logical name and refers only to resources
    that were declared before it. *)
Fixpoint declared_before_use (seen : list string) (p : list Resource) : bool :=
  match p with
  | [] => true
  | r :: p' =>
      negb (mem (rname r) seen)
      && forallb (fun d => mem d seen) (deps r)
      && declared_before_use (rname r :: seen) p'
  end.

(** An edge of the graph: the resource named [a] refers to an attribute of
    the resource named [b]. *)
Definition depends_on (p : list Resource) (a b : string) : Prop :=
  exists r, In r p /\ rname r = a /\ In b (deps r).

Definition acyclic (p : list Resource) : Prop :=
  forall a, ~ clos_trans string (depends_on p) a a.

(** The position of the first descriptor with a given logical name. *)
Fixpoint rank (p : list Resource) (n : string) : nat :=
  match p with
  | [] => 0
  | r :: p' => if String.eqb (rname r) n then 0 else S (rank p' n)
  end.

(** The graph with one more edge. *)
Definition with_edge (R : string -> string -> Prop) (a b : string)
  : string -> string -> Prop :=
  fun x y => R x y \/ (x = a /\ y = b).

(* ------------------------------------------------------------------------ *)
(** ** The exported surface                                                  *)
(* ------------------------------------------------------------------------ *)

(** The outputs an export holds, with the path they are reached by. *)
Definition export_entries (e : string * Export) : list (list string * Output) :=
  match snd e with
  | ExportObject fields => map (fun kv => ([fst e; fst kv], snd kv)) fields
  | ExportValue o => [([fst e], o)]
  end.

Definition exported (es : list (string * Export)) : list (list string * Output) :=
  flat_map export_entries es.

Definition is_flat (es : list (string * Export)) : bool :=
  forallb (fun e => match snd e with ExportValue _ => true | ExportObject _ => false end) es.

(* ------------------------------------------------------------------------ *)
(** ** Text                                                                  *)
(* ------------------------------------------------------------------------ *)

Fixpoint no_dash (s : string) : bool :=
  match s with
  | EmptyString => true
  | String c s' => negb (Ascii.eqb c "-") && no_dash s'
  end.

(** A JSON string token. *)
Definition q (s : string) : string := JS.dquote ++ s ++ JS.dquote.

(* ------------------------------------------------------------------------ *)
(** ** Statements about two evaluations                                      *)
(* ------------------------------------------------------------------------ *)

(** Two evaluations declare the same descriptors. *)
Definition same_descriptors (p1 p2 : list Resource) : Prop := p1 = p2.

(** The bucket and the Snowflake objects of two deployments: no object of
    one is created under the name of its counterpart in the other. *)
Definition named_object (r : Resource) : bool :=
  match rtype r with
  | aws_s3_Bucket => true
  | _ => is_snowflake r
  end.

Definition no_name_collision (p1 p2 : list Resource) : Prop :=
  forall r1 r2,
    In r1 p1 -> In r2 p2 -> rname r1 = rname r2 -> named_object r1 = true ->
    physical_name r1 <> physical_name r2.

(** The ten identifiers handed to the follow-up commands. *)
Definition identifiers (environment : string) (now : Z) : list Output := [
  attr (dataBucket environment now) "bucket";
  attr (dataBucket environment now) "arn";
  attr (snowflakeRole environment) "arn";
  attr (snowflakeRole environment) "name";
  attr warehouse "name";
  attr database "name";
  attr schema "name";
  attr (s3Stage environment now) "name";
  attr taxiTable "name";
  attr (storageIntegration environment now) "name"
].

(** An export surface that is one flat mapping holding exactly the given
    values. *)
Definition flat_surface_of (es : list (string * Export)) (values : list Output) : Prop :=
  is_flat es = true /\ forall o, In o (map snd (exported es)) <-> In o values.

(* ------------------------------------------------------------------------ *)
(** ** What the engine hands to a provider                                   *)
(* ------------------------------------------------------------------------ *)

(** The argument object with every output replaced by its resolved string. *)
Fixpoint resolve_value (rho : string -> string -> string) (v : Value) : Value :=
  match v with
  | VOut o => VOut (Lit (resolve rho o))
  | VBool b => VBool b
  | VNum n => VNum n
  | VArr items => VArr (map (resolve_value rho) items)
  | VObj fields =>
      VObj ((fix go (l : list (string * Value)) : list (string * Value) :=
               match l with
               | [] => []
               | (k, x) :: l' => (k, resolve_value rho x) :: go l'
               end) fields)
  end.

Definition resolved_args (rho : string -> string -> string) (r : Resource) : Value :=
  resolve_value rho (VObj (rargs r)).

(** Induction on outputs and on values, through the lists they nest in. *)
Section Induction.

Variable P : Output -> Prop.
Hypothesis P_Lit : forall s, P (Lit s).
Hypothesis P_Attr : forall r a, P (Attr r a).
Hypothesis P_Interpolate :
  forall head holes, Forall (fun hs => P (fst hs)) holes -> P (Interpolate head holes).
Hypothesis P_AllApply : forall args f, Forall P args -> P (AllApply args f).

Fixpoint Output_nested_ind (o : Output) : P o :=
  match o with
  | Lit s => P_Lit s
  | Attr r a => P_Attr r a
  | Interpolate head holes =>
      P_Interpolate head holes
        ((fix go (l : list (Output * string)) : Forall (fun hs => P (fst hs)) l :=
            match l with
            | [] => Forall_nil _
            | (h, s) :: l' => Forall_cons (h, s) (Output_nested_ind h) (go l')
            end) holes)
  | AllApply args f =>
      P_AllApply args f
        ((fix go (l : list Output) : Forall P l :=
            match l with
            | [] => Forall_nil _
            | h :: l' => Forall_cons h (Output_nested_ind h) (go l')
            end) args)
  end.

Variable Q : Value -> Prop.
Hypothesis Q_VOut : forall o, Q (VOut o).
Hypothesis Q_VBool : forall b, Q (VBool b).
Hypothesis Q_VNum : forall n, Q (VNum n).
Hypothesis Q_VArr : forall items, Forall Q items -> Q (VArr items).
Hypothesis Q_VObj : forall fields, Forall (fun kv => Q (snd kv)) fields -> Q (VObj fields).

Fixpoint Value_nested_ind (v : Value) : Q v :=
  match v with
  | VOut o => Q_VOut o
  | VBool b => Q_VBool b
  | VNum n => Q_VNum n
  | VArr items =>
      Q_VArr items
        ((fix go (l : list Value) : Forall Q l :=
            match l with
            | [] => Forall_nil _
            | x :: l' => Forall_cons x (Value_nested_ind x) (go l')
            end) items)
  | VObj fields =>
      Q_VObj fields
        ((fix go (l : list (string * Value)) : Forall (fun kv => Q (snd kv)) l :=
            match l with
            | [] => Forall_nil _
            | (k, x) :: l' => Forall_cons (k, x) (Value_nested_ind x) (go l')
            end) fields)
  end.

End Induction.

(* ------------------------------------------------------------------------ *)
(** ** Reading policy documents and texts                                    *)
(* ------------------------------------------------------------------------ *)

(** The statements of a policy document, and the strings of a member that is
    one string or an array of strings. *)
Definition statements (doc : JSON.t) : list JSON.t :=
  match JSON.field "Statement" doc with
  | Some (JSON.JArr l) => l
  | _ => []
  end.

Definition strings_of (v : option JSON.t) : list string :=
  match v with
  | Some (JSON.JStr s) => [s]
  | Some (JSON.JArr items) =>
      flat_map (fun x => match x with JSON.JStr s => [s] | _ => [] end) items
  | _ => []
  end.

Definition actions (statement : JSON.t) : list string :=
  strings_of (JSON.field "Action" statement).

Definition resources (statement : JSON.t) : list string :=
  strings_of (JSON.field "Resource" statement).

(** The value of a hexadecimal digit as [JSON.stringify] writes it. *)
Definition hex_value (c : ascii) : option nat :=
  let n := nat_of_ascii c in
  if (48 <=? n)%nat && (n <=? 57)%nat then Some (n - 48)
  else if (97 <=? n)%nat && (n <=? 102)%nat then Some (n - 87)
  else None.

Definition read_more (c : ascii) (r : option (string * string)) : option (string * string) :=
  match r with
  | Some (s, rest) => Some (String c s, rest)
  | None => None
  end.

(** Reading a JSON string token after its opening quote: the text it
    denotes and what follows the closing quote. *)
Fixpoint read_string (s : string) : option (string * string) :=
  match s with
  | EmptyString => None
  | String c rest =>
      let n := nat_of_ascii c in
      if (n =? 34)%nat then Some (EmptyString, rest)
      else if (n =? 92)%nat then
        match rest with
        | EmptyString => None
        | String e rest' =>
            let m := nat_of_ascii e in
            if (m =? 34)%nat then read_more e (read_string rest')
            else if (m =? 92)%nat then read_more e (read_string rest')
            else if (m =? 98)%nat then read_more (ascii_of_nat 8) (read_string rest')
            else if (m =? 116)%nat then read_more (ascii_of_nat 9) (read_string rest')
            else if (m =? 110)%nat then read_more (ascii_of_nat 10) (read_string rest')
            else if (m =? 102)%nat then read_more (ascii_of_nat 12) (read_string rest')
            else if (m =? 114)%nat then read_more (ascii_of_nat 13) (read_string rest')
            else if (m =? 117)%nat then
              match rest' with
              | String z1 (String z2 (String h (String l rest''))) =>
                  match hex_value h, hex_value l with
                  | Some a, Some b =>
                      if (nat_of_ascii z1 =? 48)%nat && (nat_of_ascii z2 =? 48)%nat
                      then read_more (ascii_of_nat (16 * a + b)) (read_string rest'')
                      else None
                  | _, _ => None
                  end
              | _ => None
              end
            else None
        end
      else if (n <? 32)%nat then None
      else read_more c (read_string rest)
  end.

(** One text occurs inside another. *)
Definition contains (needle hay : string) : Prop :=
  exists pre post, hay = pre ++ needle ++ post.

Fixpoint occurs (needle hay : string) : bool :=
  String.prefix needle hay ||
  match hay with
  | EmptyString => false
  | String _ hay' => occurs needle hay'
  end.

Fixpoint all_chars (f : ascii -> bool) (s : string) : bool :=
  match s with
  | EmptyString => true
  | String c s' => f c && all_chars f s'
  end.

(** Lower-case letters, digits and the hyphen. *)
Definition bucket_char (c : ascii) : bool :=
  let n := nat_of_ascii c in
  ((97 <=? n)%nat && (n <=? 122)%nat) || ((48 <=? n)%nat && (n <=? 57)%nat)
  || (n =? 45)%nat.

(* ------------------------------------------------------------------------ *)
(** ** Names within one deployment                                           *)
(* ------------------------------------------------------------------------ *)

(** The names the descriptors create objects under, in program order. *)
Definition declared_names (p : list Resource) : list string :=
  flat_map (fun r => match physical_name r with Some n => [n] | None => [] end) p.

Definition type_eqb (a b : ResourceType) : bool :=
  match a, b with
  | aws_s3_Bucket, aws_s3_Bucket
  | aws_s3_BucketPolicy, aws_s3_BucketPolicy
  | aws_iam_Role, aws_iam_Role
  | aws_iam_RolePolicy, aws_iam_RolePolicy
  | snowflake_Warehouse, snowflake_Warehouse
  | snowflake_Database, snowflake_Database
  | snowflake_Schema, snowflake_Schema
  | snowflake_StorageIntegration, snowflake_StorageIntegration
  | snowflake_FileFormat, snowflake_FileFormat
  | snowflake_Stage, snowflake_Stage
  | snowflake_Table, snowflake_Table => true
  | _, _ => false
  end.

(** Whether a program declares an object of a class under a name. *)
Definition declares (p : list Resource) (ref : ResourceType * string) : bool :=
  existsb (fun r =>
             type_eqb (rtype r) (fst ref)
             && match physical_name r with
                | Some n => String.eqb n (snd ref)
                | None => false
                end) p.

(** Objects that live inside a schema. *)
Definition schema_level (r : Resource) : bool :=
  match rtype r with
  | snowflake_FileFormat | snowflake_Stage | snowflake_Table => true
  | _ => false
  end.

(** The objects [snowflake/setup.sql] names outside comments, in the order
    of first use: [USE WAREHOUSE], [USE DATABASE], [USE SCHEMA], [COPY INTO ..
    FROM @.. FILE_FORMAT = ..] and [DESC STORAGE INTEGRATION].  The script
    writes them unquoted and in upper case. *)
Module SetupSql.

Definition references : list (ResourceType * string) := [
  (snowflake_Warehouse, "DATA_PIPELINE_WH");
  (snowflake_Database, "DATA_PIPELINE_DB");
  (snowflake_Schema, "RAW");
  (snowflake_Table, "TAXI_DATA");
  (snowflake_Stage, "S3_STAGE");
  (snowflake_FileFormat, "PARQUET_FORMAT");
  (snowflake_StorageIntegration, "DATA_PIPELINE_S3_INT")
].

End SetupSql.

(* ------------------------------------------------------------------------ *)
(** ** An engine that creates objects under the declared names               *)
(* ------------------------------------------------------------------------ *)

(** The output attribute that reports the name an object was created under:
    [bucket] for an S3 bucket, [name] for the other classes. *)
Definition name_attribute (r : Resource) : string :=
  match rtype r with
  | aws_s3_Bucket => "bucket"
  | _ => "name"
  end.

(** An engine state in which every object the program names was created
    under that name. *)
Definition echoes (rho : string -> string -> string) (p : list Resource) : Prop :=
  forall r n, In r p -> physical_name r = Some n -> rho (rname r) (name_attribute r) = n.

(** The least informative such state: declared names, and nothing else. *)
Definition echo (p : list Resource) (resource attribute : string) : string :=
  match find (fun r => String.eqb (rname r) resource) p with
  | Some r =>
      if String.eqb attribute (name_attribute r)
      then match physical_name r with Some n => n | None => EmptyString end
      else EmptyString
  | None => EmptyString
  end.

(** The characters [JSON.stringify] writes as they are: everything but the
    double quote, the backslash and the control characters. *)
Definition json_plain (c : ascii) : bool :=
  let n := nat_of_ascii c in
  negb (n =? 34)%nat && negb (n =? 92)%nat && negb (n <? 32)%nat.

(* ------------------------------------------------------------------------ *)
(** * Properties                                                             *)
(* ------------------------------------------------------------------------ *)

(** ** Facts about text *)

Lemma append_assoc (a b c : string) : (a ++ b) ++ c = a ++ b ++ c.
Proof.
  induction a as [|x a IH]; simpl; [reflexivity | now rewrite IH].
Qed.

Lemma all_chars_append (f : ascii -> bool) (a b : string) :
  all_chars f (a ++ b) = all_chars f a && all_chars f b.
Proof.
  induction a as [|c a IH]; simpl; [reflexivity|].
  now rewrite IH, andb_assoc.
Qed.

Lemma escape_char_plain (c : ascii) :
  json_plain c = true -> JSON.escape_char c = String c EmptyString.
Proof.
  destruct c as [[|] [|] [|] [|] [|] [|] [|] [|]];
    intros H; try reflexivity; discriminate H.
Qed.

(** A text without quotes, backslashes and control characters is written as
    it is, between two quotes. *)
Lemma quote_plain (s : string) :
  all_chars json_plain s = true -> JSON.quote s = q s.
Proof.
  intros H. unfold JSON.quote, q. f_equal. f_equal.
  induction s as [|c s IH]; [reflexivity|].
  simpl in H. apply andb_prop in H as [Hc Hs].
  cbn [JSON.escape]. rewrite (escape_char_plain c Hc), (IH Hs). reflexivity.
Qed.

Lemma append_inv_head (p a b : string) : p ++ a = p ++ b -> a = b.
Proof.
  induction p as [|c p IH]; simpl; intros H.
  - exact H.
  - injection H as H. auto.
Qed.

(** The decimal rendering determines the number. *)
Lemma number_to_string_inj (n m : Z) :
  JS.number_to_string n = JS.number_to_string m -> n = m.
Proof.
  unfold JS.number_to_string. intros H.
  apply DecimalZ.to_int_inj.
  assert (E : Some (Z.to_int n) = Some (Z.to_int m)).
  { rewrite <- (NilEmpty.isi (Z.to_int n)), <- (NilEmpty.isi (Z.to_int m)).
    now rewrite H. }
  now injection E.
Qed.

Lemma no_dash_uint (d : uint) : no_dash (NilEmpty.string_of_uint d) = true.
Proof.
  induction d; simpl; auto.
Qed.

(** From the epoch on, the rendering is digits only. *)
Lemma no_dash_number (n : Z) : (0 <= n)%Z -> no_dash (JS.number_to_string n) = true.
Proof.
  intros Hn. unfold JS.number_to_string.
  destruct n as [|p|p]; simpl.
  - reflexivity.
  - apply no_dash_uint.
  - lia.
Qed.

Lemma no_dash_app_dash (x y : string) : no_dash (x ++ String "-" y) = false.
Proof.
  induction x as [|c x IH]; simpl.
  - reflexivity.
  - rewrite IH. apply andb_false_r.
Qed.

(** A text is cut in one way only at its last dash. *)
Lemma split_at_last_dash (a b x y : string) :
  no_dash x = true -> no_dash y = true ->
  a ++ String "-" x = b ++ String "-" y -> a = b /\ x = y.
Proof.
  intros Hx Hy. revert b.
  induction a as [|c a IH]; intros [|c' b] H; simpl in H.
  - injection H as H. now split.
  - injection H as Hc H. subst x.
    rewrite no_dash_app_dash in Hx. discriminate.
  - injection H as Hc H. subst y.
    rewrite no_dash_app_dash in Hy. discriminate.
  - injection H as Hc H. subst c'.
    destruct (IH b H) as [-> ->]. now split.
Qed.

(** The two names that carry the stack name. *)
Lemma bucket_name_eq (environment : string) (now : Z) :
  physical_name (dataBucket environment now)
  = Some (projectName ++ "-data-" ++ environment ++ "-" ++ JS.number_to_string now).
Proof. reflexivity. Qed.

Lemma role_name_eq (environment : string) :
  physical_name (snowflakeRole environment)
  = Some (projectName ++ "-snowflake-access-" ++ environment).
Proof. reflexivity. Qed.

Lemma bucket_name_inj_clock (environment : string) (t1 t2 : Z) :
  physical_name (dataBucket environment t1) = physical_name (dataBucket environment t2)
  -> t1 = t2.
Proof.
  rewrite !bucket_name_eq. intros H. injection H as H.
  apply append_inv_head in H. injection H as H.
  now apply number_to_string_inj.
Qed.

Lemma bucket_name_inj (e1 e2 : string) (t1 t2 : Z) :
  (0 <= t1)%Z -> (0 <= t2)%Z ->
  physical_name (dataBucket e1 t1) = physical_name (dataBucket e2 t2) ->
  e1 = e2 /\ t1 = t2.
Proof.
  intros H1 H2. rewrite !bucket_name_eq. intros H. injection H as H.
  apply split_at_last_dash in H; auto using no_dash_number.
  destruct H as [-> H]. split; [reflexivity | now apply number_to_string_inj].
Qed.

Lemma role_name_inj (e1 e2 : string) :
  physical_name (snowflakeRole e1) = physical_name (snowflakeRole e2) -> e1 = e2.
Proof.
  rewrite !role_name_eq. intros H. now injection H.
Qed.

Lemma length_append (a b : string) :
  String.length (a ++ b) = String.length a + String.length b.
Proof.
  induction a as [|c a IH]; simpl; [reflexivity | now rewrite IH].
Qed.

Lemma append_inv_tail (a b s : string) : a ++ s = b ++ s -> a = b.
Proof.
  revert b. induction a as [|c a IH]; intros [|c' b] H; simpl in H.
  - reflexivity.
  - apply (f_equal String.length) in H. simpl in H.
    rewrite length_append in H. lia.
  - apply (f_equal String.length) in H. simpl in H.
    rewrite length_append in H. lia.
  - injection H as -> H. now rewrite (IH b H).
Qed.

Lemma bucket_name_inj_stack (e1 e2 : string) (now : Z) :
  physical_name (dataBucket e1 now) = physical_name (dataBucket e2 now) -> e1 = e2.
Proof.
  rewrite !bucket_name_eq. intros H. injection H as H.
  now apply append_inv_tail in H.
Qed.

(** ** Facts about the dependency graph *)

Lemma mem_In (n : string) (l : list string) : mem n l = true <-> In n l.
Proof.
  unfold mem. rewrite existsb_exists. split.
  - intros [x [Hx E]]. apply String.eqb_eq in E. now subst x.
  - intros H. exists n. split; [exact H | apply String.eqb_refl].
Qed.

(** Under [declared_before_use], an edge leaves a name that is new and
    arrives at a name seen before or of smaller rank. *)
Lemma edges_go_back (p : list Resource) :
  forall seen, declared_before_use seen p = true ->
  forall a b, depends_on p a b ->
    ~ In a seen /\ (In b seen \/ rank p b < rank p a).
Proof.
  induction p as [|r p IH]; intros seen Hc a b [r' [Hin [Hn Hd]]].
  - destruct Hin.
  - simpl in Hc.
    apply andb_prop in Hc as [Hc Hrest]. apply andb_prop in Hc as [Hfresh Hdeps].
    destruct Hin as [<- | Hin].
    + subst a. split.
      * intros Hs. apply mem_In in Hs. rewrite Hs in Hfresh. discriminate.
      * left. rewrite forallb_forall in Hdeps. apply mem_In, Hdeps, Hd.
    + destruct (IH _ Hrest a b) as [Hna Hb].
      { exists r'. auto. }
      assert (Har : rname r <> a).
      { intros E. apply Hna. left. exact E. }
      split.
      * intros Hs. apply Hna. right. exact Hs.
      * simpl. destruct (String.eqb_spec (rname r) a) as [E|_]; [contradiction|].
        destruct (String.eqb_spec (rname r) b) as [_|Hrb].
        -- right. lia.
        -- destruct Hb as [[Hb|Hb]|Hb];
             [contradiction | left; exact Hb | right; lia].
Qed.

Lemma paths_go_back (p : list Resource) :
  declared_before_use [] p = true ->
  forall a b, clos_trans string (depends_on p) a b -> rank p b < rank p a.
Proof.
  intros Hc a b H.
  induction H as [a b Hab | a b c _ IH1 _ IH2].
  - destruct (edges_go_back p [] Hc a b Hab) as [_ [[]|H]]. exact H.
  - lia.
Qed.

(** A program that declares before use has no cycle of references. *)
Lemma declared_before_use_acyclic (p : list Resource) :
  declared_before_use [] p = true -> acyclic p.
Proof.
  intros Hc a Ha. apply (paths_go_back p Hc) in Ha. lia.
Qed.

Lemma rank_le_length (p : list Resource) (n : string) : rank p n <= List.length p.
Proof.
  induction p as [|r p IH]; simpl; [lia|].
  destruct (String.eqb (rname r) n); lia.
Qed.

Lemma rank_lt_declared (p : list Resource) (n : string) :
  rank p n < List.length p -> exists r, In r p /\ rname r = n.
Proof.
  induction p as [|r p IH]; simpl; [lia|].
  destruct (String.eqb_spec (rname r) n) as [E|_]; intros H.
  - exists r. auto.
  - destruct IH as [r' [Hin Hn]]; [lia|]. exists r'. auto.
Qed.

(** Every reference names a descriptor that stands earlier in the list. *)
Lemma references_resolve_earlier (p : list Resource) :
  declared_before_use [] p = true ->
  forall r b, In r p -> In b (deps r) ->
    rank p b < rank p (rname r) /\ exists r', In r' p /\ rname r' = b.
Proof.
  intros Hc r b Hr Hb.
  assert (E : depends_on p (rname r) b) by (exists r; auto).
  destruct (edges_go_back p [] Hc _ _ E) as [_ [[]|Hlt]].
  split; [exact Hlt|].
  apply rank_lt_declared. pose proof (rank_le_length p (rname r)). lia.
Qed.

Lemma declared_before_use_names (p : list Resource) :
  forall seen, declared_before_use seen p = true ->
    NoDup (map rname p) /\ forall n, In n (map rname p) -> ~ In n seen.
Proof.
  induction p as [|r p IH]; intros seen Hc; simpl.
  - split; [constructor | intros n []].
  - simpl in Hc.
    apply andb_prop in Hc as [Hc Hrest]. apply andb_prop in Hc as [Hfresh _].
    destruct (IH _ Hrest) as [Hnd Hout].
    assert (Hr : ~ In (rname r) seen).
    { intros Hs. apply mem_In in Hs. rewrite Hs in Hfresh. discriminate. }
    split.
    + constructor; [|exact Hnd].
      intros Hin. apply (Hout _ Hin). left. reflexivity.
    + intros n [<- | Hin]; [exact Hr|].
      intros Hs. apply (Hout _ Hin). right. exact Hs.
Qed.

(* ------------------------------------------------------------------------ *)
(** ** Evaluating the program twice                                          *)
(* ------------------------------------------------------------------------ *)

(** C1, as stated, fails: the stack [dev] evaluated at two clock readings one
    millisecond apart declares two different descriptor lists, and the two
    buckets carry different names. *)
Lemma reapply_changes_bucket_name :
  ~ same_descriptors (program "dev" 1700000000000) (program "dev" 1700000000001)
  /\ physical_name (dataBucket "dev" 1700000000000) = Some "data-pipeline-data-dev-1700000000000"
  /\ physical_name (dataBucket "dev" 1700000000001) = Some "data-pipeline-data-dev-1700000000001".
Proof.
  split; [|split; reflexivity].
  unfold same_descriptors. intros H.
  apply (f_equal (fun p => option_map physical_name (hd_error p))) in H.
  vm_compute in H. discriminate H.
Qed.

(** C1, amended: for a fixed stack, two evaluations declare the same
    descriptors exactly when [Date.now()] gave the same reading.  The reading
    enters through the bucket's name only: the bucket's class, logical name
    and other arguments, and the eleven descriptors after it, are the same at
    every reading. *)
Theorem descriptors_identical_iff_same_clock (environment : string) (t1 t2 : Z) :
  (same_descriptors (program environment t1) (program environment t2) <-> t1 = t2)
  /\ (physical_name (dataBucket environment t1) = physical_name (dataBucket environment t2)
      <-> t1 = t2)
  /\ tl (program environment t1) = tl (program environment t2)
  /\ rtype (dataBucket environment t1) = rtype (dataBucket environment t2)
  /\ rname (dataBucket environment t1) = rname (dataBucket environment t2)
  /\ tl (rargs (dataBucket environment t1)) = tl (rargs (dataBucket environment t2)).
Proof.
  split; [|split].
  - unfold same_descriptors. split.
    + intros H. apply (bucket_name_inj_clock environment).
      apply (f_equal (fun p => match p with r :: _ => physical_name r | [] => None end)) in H.
      exact H.
    + now intros ->.
  - split.
    + apply bucket_name_inj_clock.
    + now intros ->.
  - repeat split.
Qed.

(* ------------------------------------------------------------------------ *)
(** ** Names across environments                                             *)
(* ------------------------------------------------------------------------ *)

(** C2, as stated, fails: the stacks [dev] and [prod] create their warehouse
    under the same name, [DATA-PIPELINE_WH]. *)
Lemma dev_and_prod_share_warehouse_name :
  ~ no_name_collision (program "dev" 1700000000000) (program "prod" 1700000000000).
Proof.
  intros H.
  apply (H warehouse warehouse).
  - simpl. tauto.
  - simpl. tauto.
  - reflexivity.
  - reflexivity.
  - reflexivity.
Qed.

(** C2, amended: for two different environments, evaluated at clock readings
    from the epoch on, the bucket names differ and the role names differ;
    the eight Snowflake objects are created under the same names in every
    environment. *)
Theorem names_across_environments (e1 e2 : string) (t1 t2 : Z) :
  e1 <> e2 -> (0 <= t1)%Z -> (0 <= t2)%Z ->
  physical_name (dataBucket e1 t1) <> physical_name (dataBucket e2 t2)
  /\ physical_name (snowflakeRole e1) <> physical_name (snowflakeRole e2)
  /\ map physical_name (filter is_snowflake (program e1 t1))
     = map physical_name (filter is_snowflake (program e2 t2))
  /\ map physical_name (filter is_snowflake (program e1 t1))
     = [ Some "DATA-PIPELINE_WH"; Some "DATA-PIPELINE_DB"; Some "RAW";
         Some "DATA-PIPELINE_S3_INT"; Some "CSV_FORMAT"; Some "PARQUET_FORMAT";
         Some "S3_STAGE"; Some "TAXI_DATA" ].
Proof.
  intros Hne H1 H2. split; [|split; [|split]].
  - intros H. apply Hne. now destruct (bucket_name_inj e1 e2 t1 t2 H1 H2 H).
  - intros H. apply Hne. now apply role_name_inj.
  - reflexivity.
  - reflexivity.
Qed.

(** The stacks [dev] and [prod], evaluated one millisecond apart. *)
Lemma names_across_environments_witness :
  physical_name (dataBucket "dev" 1700000000000)
    <> physical_name (dataBucket "prod" 1700000000001)
  /\ physical_name (snowflakeRole "dev") <> physical_name (snowflakeRole "prod")
  /\ map physical_name (filter is_snowflake (program "dev" 1700000000000))
     = map physical_name (filter is_snowflake (program "prod" 1700000000001))
  /\ map physical_name (filter is_snowflake (program "dev" 1700000000000))
     = [ Some "DATA-PIPELINE_WH"; Some "DATA-PIPELINE_DB"; Some "RAW";
         Some "DATA-PIPELINE_S3_INT"; Some "CSV_FORMAT"; Some "PARQUET_FORMAT";
         Some "S3_STAGE"; Some "TAXI_DATA" ].
Proof.
  apply (names_across_environments "dev" "prod" 1700000000000 1700000000001).
  - discriminate.
  - lia.
  - lia.
Defined.

(** Before the epoch the rendering starts with a dash, and two environments
    can meet on one bucket name. *)
Remark bucket_names_meet_before_epoch :
  physical_name (dataBucket "a-" 5) = physical_name (dataBucket "a" (-5)).
Proof. reflexivity. Qed.

(* ------------------------------------------------------------------------ *)
(** ** The bucket                                                            *)
(* ------------------------------------------------------------------------ *)

(** C8: the bucket is created under
    [<project>-data-<environment>-<timestamp>], a name that changes with the
    environment and with the timestamp, and its [forceDestroy] flag is
    [true]. *)
Theorem bucket_name_and_force_destroy (environment : string) (now : Z) :
  rtype (dataBucket environment now) = aws_s3_Bucket
  /\ prop "bucket" (dataBucket environment now)
     = Some (str (projectName ++ "-data-" ++ environment ++ "-" ++ JS.number_to_string now))
  /\ prop "forceDestroy" (dataBucket environment now) = Some (VBool true)
  /\ (forall environment',
        physical_name (dataBucket environment' now) = physical_name (dataBucket environment now)
        <-> environment' = environment)
  /\ (forall now',
        physical_name (dataBucket environment now') = physical_name (dataBucket environment now)
        <-> now' = now)
  /\ physical_name (dataBucket "dev" 1700000000000)
     = Some "data-pipeline-data-dev-1700000000000".
Proof.
  repeat split.
  - apply bucket_name_inj_stack.
  - now intros ->.
  - apply bucket_name_inj_clock.
  - now intros ->.
Qed.

(* ------------------------------------------------------------------------ *)
(** ** The declared resources                                                *)
(* ------------------------------------------------------------------------ *)

(** C3, as stated, fails: the program does not declare eleven descriptors. *)
Lemma program_does_not_declare_eleven :
  List.length (program "dev" 1700000000000) <> 11.
Proof. simpl. discriminate. Qed.

(** C3, amended: the program declares exactly twelve descriptors, four on
    AWS and eight on Snowflake, under twelve distinct logical names; one of
    them is a bucket, the first, and its [forceDestroy] flag is [true]. *)
Theorem program_declares_twelve (environment : string) (now : Z) :
  List.length (program environment now) = 12
  /\ List.length (filter is_aws (program environment now)) = 4
  /\ List.length (filter is_snowflake (program environment now)) = 8
  /\ NoDup (map rname (program environment now))
  /\ filter (fun r => match rtype r with aws_s3_Bucket => true | _ => false end)
       (program environment now) = [dataBucket environment now]
  /\ prop "forceDestroy" (dataBucket environment now) = Some (VBool true).
Proof.
  repeat split.
  apply (declared_before_use_names (program environment now) []).
  reflexivity.
Qed.

(* ------------------------------------------------------------------------ *)
(** ** References between resources                                          *)
(* ------------------------------------------------------------------------ *)

(** C4: the storage integration's [storageAwsRoleArn] and the stage's [url]
    are not plain strings.  The first is the role's [arn] attribute, the
    second an interpolation whose only hole is the bucket's [bucket]
    attribute, so whatever values the engine reports for the role and the
    bucket are the values the integration and the stage receive. *)
Theorem cross_cloud_references_are_bindings (environment : string) (now : Z) :
  exists roleArn url : Output,
    prop "storageAwsRoleArn" (storageIntegration environment now) = Some (VOut roleArn)
    /\ prop "url" (s3Stage environment now) = Some (VOut url)
    /\ is_literal roleArn = false
    /\ is_literal url = false
    /\ refs roleArn = [(rname (snowflakeRole environment), "arn")]
    /\ refs url = [(rname (dataBucket environment now), "bucket")]
    /\ rtype (snowflakeRole environment) = aws_iam_Role
    /\ rtype (dataBucket environment now) = aws_s3_Bucket
    /\ (forall rho,
          resolve rho roleArn = rho (rname (snowflakeRole environment)) "arn")
    /\ (forall rho,
          resolve rho url
          = "s3://" ++ rho (rname (dataBucket environment now)) "bucket" ++ "/raw/").
Proof.
  eexists. eexists.
  split; [reflexivity|]. split; [reflexivity|].
  repeat split.
Qed.

(** C5: every attribute reference of a descriptor names a descriptor that
    stands earlier in the program, so the reference graph has no cycle.  The
    role refers to nothing: its trust in the storage integration is not an
    edge of the graph, and since the integration refers to the role, that
    edge would close a cycle. *)
Theorem dependency_graph_acyclic (environment : string) (now : Z) :
  declared_before_use [] (program environment now) = true
  /\ (forall r b,
        In r (program environment now) -> In b (deps r) ->
        rank (program environment now) b < rank (program environment now) (rname r)
        /\ exists r', In r' (program environment now) /\ rname r' = b)
  /\ acyclic (program environment now)
  /\ deps (snowflakeRole environment) = []
  /\ depends_on (program environment now)
       (rname (storageIntegration environment now)) (rname (snowflakeRole environment))
  /\ clos_trans string
       (with_edge (depends_on (program environment now))
          (rname (snowflakeRole environment)) (rname (storageIntegration environment now)))
       (rname (snowflakeRole environment)) (rname (snowflakeRole environment)).
Proof.
  assert (Hc : declared_before_use [] (program environment now) = true)
    by reflexivity.
  assert (Hsi : depends_on (program environment now)
                  (rname (storageIntegration environment now))
                  (rname (snowflakeRole environment))).
  { exists (storageIntegration environment now). repeat split.
    - simpl. tauto.
    - simpl. tauto. }
  split; [exact Hc|]. split; [|split; [|split; [|split]]].
  - apply references_resolve_earlier, Hc.
  - apply declared_before_use_acyclic, Hc.
  - reflexivity.
  - exact Hsi.
  - apply t_trans with (y := rname (storageIntegration environment now)).
    + apply t_step. right. split; reflexivity.
    + apply t_step. left. exact Hsi.
Qed.

(* ------------------------------------------------------------------------ *)
(** ** The policy documents                                                  *)
(* ------------------------------------------------------------------------ *)

(** C6: the role's trust policy is a plain string fixed when the program
    runs; its one statement names the principal [*] and the external id
    [snowflake_external_id], and the role descriptor refers to no attribute
    of any resource, the storage integration included. *)
Theorem trust_policy_is_placeholder (environment : string) :
  prop "assumeRolePolicy" (snowflakeRole environment)
    = Some (str (JSON.stringify assumeRolePolicyDocument))
  /\ value_refs (VObj (rargs (snowflakeRole environment))) = []
  /\ (exists statement principal condition equals,
        JSON.field "Statement" assumeRolePolicyDocument = Some (JSON.JArr [statement])
        /\ JSON.field "Effect" statement = Some (JSON.JStr "Allow")
        /\ JSON.field "Action" statement = Some (JSON.JStr "sts:AssumeRole")
        /\ JSON.field "Principal" statement = Some principal
        /\ principal = JSON.JObj [("AWS", JSON.JStr "*")]
        /\ JSON.field "Condition" statement = Some condition
        /\ JSON.field "StringEquals" condition = Some equals
        /\ equals = JSON.JObj [("sts:ExternalId", JSON.JStr "snowflake_external_id")])
  /\ JSON.stringify assumeRolePolicyDocument
     = "{" ++ q "Version" ++ ":" ++ q "2012-10-17" ++ ","
           ++ q "Statement" ++ ":[{"
           ++ q "Effect" ++ ":" ++ q "Allow" ++ ","
           ++ q "Principal" ++ ":{" ++ q "AWS" ++ ":" ++ q "*" ++ "},"
           ++ q "Action" ++ ":" ++ q "sts:AssumeRole" ++ ","
           ++ q "Condition" ++ ":{" ++ q "StringEquals" ++ ":{"
           ++ q "sts:ExternalId" ++ ":" ++ q "snowflake_external_id" ++ "}}}]}".
Proof.
  split; [reflexivity|]. split; [reflexivity|]. split; [|reflexivity].
  do 4 eexists. repeat split.
Qed.

(** C10: whatever ARN the engine reports for the bucket, the bucket policy
    is the text of a document with a single statement that allows
    [s3:GetObject], [s3:GetObjectVersion] and [s3:ListBucket] on the bucket
    and on every object under it, names the principal [*], and carries no
    condition.  The text handed to the engine is written out: the ARN appears
    in it as a quoted JSON string, as it is when it has no quote, backslash
    or control character, and for the ARN of one bucket the whole text is
    given. *)
Theorem bucket_policy_allows_every_principal
    (environment : string) (now : Z) (rho : string -> string -> string) :
  exists (policy : Output) (statement : JSON.t),
    prop "policy" (bucketPolicy environment now) = Some (VOut policy)
    /\ refs policy = [(rname (dataBucket environment now), "arn")]
    /\ resolve rho policy
       = JSON.stringify
           (bucketPolicyDocument (Some (rho (rname (dataBucket environment now)) "arn")))
    /\ JSON.field "Statement"
         (bucketPolicyDocument (Some (rho (rname (dataBucket environment now)) "arn")))
       = Some (JSON.JArr [statement])
    /\ JSON.field "Effect" statement = Some (JSON.JStr "Allow")
    /\ JSON.field "Principal" statement = Some (JSON.JStr "*")
    /\ JSON.field "Action" statement
       = Some (JSON.JArr [JSON.JStr "s3:GetObject"; JSON.JStr "s3:GetObjectVersion";
                          JSON.JStr "s3:ListBucket"])
    /\ JSON.field "Resource" statement
       = Some (JSON.JArr
                 [JSON.JStr (rho (rname (dataBucket environment now)) "arn");
                  JSON.JStr (rho (rname (dataBucket environment now)) "arn" ++ "/*")])
    /\ JSON.field "Condition" statement = None
    /\ JSON.field "NotPrincipal" statement = None
    /\ resolve rho policy
       = "{" ++ q "Version" ++ ":" ++ q "2012-10-17" ++ ","
             ++ q "Statement" ++ ":[{"
             ++ q "Sid" ++ ":" ++ q "AllowSnowflakeAccess" ++ ","
             ++ q "Effect" ++ ":" ++ q "Allow" ++ ","
             ++ q "Principal" ++ ":" ++ q "*" ++ ","
             ++ q "Action" ++ ":[" ++ q "s3:GetObject" ++ ","
             ++ q "s3:GetObjectVersion" ++ "," ++ q "s3:ListBucket" ++ "],"
             ++ q "Resource" ++ ":["
             ++ JSON.quote (rho (rname (dataBucket environment now)) "arn") ++ ","
             ++ JSON.quote (rho (rname (dataBucket environment now)) "arn" ++ "/*")
             ++ "]}]}"
    /\ (all_chars json_plain (rho (rname (dataBucket environment now)) "arn") = true ->
        resolve rho policy
        = "{" ++ q "Version" ++ ":" ++ q "2012-10-17" ++ ","
              ++ q "Statement" ++ ":[{"
              ++ q "Sid" ++ ":" ++ q "AllowSnowflakeAccess" ++ ","
              ++ q "Effect" ++ ":" ++ q "Allow" ++ ","
              ++ q "Principal" ++ ":" ++ q "*" ++ ","
              ++ q "Action" ++ ":[" ++ q "s3:GetObject" ++ ","
              ++ q "s3:GetObjectVersion" ++ "," ++ q "s3:ListBucket" ++ "],"
              ++ q "Resource" ++ ":["
              ++ q (rho (rname (dataBucket environment now)) "arn") ++ ","
              ++ q (rho (rname (dataBucket environment now)) "arn" ++ "/*")
              ++ "]}]}")
    /\ resolve (fun _ _ => "arn:aws:s3:::data-pipeline-data-dev-1700000000000") policy
       = "{" ++ q "Version" ++ ":" ++ q "2012-10-17" ++ ","
             ++ q "Statement" ++ ":[{"
             ++ q "Sid" ++ ":" ++ q "AllowSnowflakeAccess" ++ ","
             ++ q "Effect" ++ ":" ++ q "Allow" ++ ","
             ++ q "Principal" ++ ":" ++ q "*" ++ ","
             ++ q "Action" ++ ":[" ++ q "s3:GetObject" ++ ","
             ++ q "s3:GetObjectVersion" ++ "," ++ q "s3:ListBucket" ++ "],"
             ++ q "Resource" ++ ":["
             ++ q "arn:aws:s3:::data-pipeline-data-dev-1700000000000" ++ ","
             ++ q "arn:aws:s3:::data-pipeline-data-dev-1700000000000/*"
             ++ "]}]}".
Proof.
  assert (T : forall arn,
             JSON.stringify (bucketPolicyDocument (Some arn))
             = "{" ++ q "Version" ++ ":" ++ q "2012-10-17" ++ ","
                   ++ q "Statement" ++ ":[{"
                   ++ q "Sid" ++ ":" ++ q "AllowSnowflakeAccess" ++ ","
                   ++ q "Effect" ++ ":" ++ q "Allow" ++ ","
                   ++ q "Principal" ++ ":" ++ q "*" ++ ","
                   ++ q "Action" ++ ":[" ++ q "s3:GetObject" ++ ","
                   ++ q "s3:GetObjectVersion" ++ "," ++ q "s3:ListBucket" ++ "],"
                   ++ q "Resource" ++ ":["
                   ++ JSON.quote arn ++ "," ++ JSON.quote (arn ++ "/*") ++ "]}]}").
  { intros arn. unfold JSON.quote.
    repeat (progress (cbn; rewrite ?append_assoc)). reflexivity. }
  do 2 eexists.
  split; [reflexivity|]. split; [reflexivity|]. split; [reflexivity|].
  split; [reflexivity|].
  split; [reflexivity|]. split; [reflexivity|]. split; [reflexivity|].
  split; [reflexivity|]. split; [reflexivity|]. split; [reflexivity|].
  split; [apply T|]. split; [|reflexivity].
  intros Hplain.
  assert (Hobj : all_chars json_plain
                   (rho (rname (dataBucket environment now)) "arn" ++ "/*") = true).
  { rewrite all_chars_append, Hplain. reflexivity. }
  rewrite <- (quote_plain _ Hplain), <- (quote_plain _ Hobj). apply T.
Qed.

(** The text the bucket policy resolves to for one bucket. *)
Example bucket_policy_text :
  match prop "policy" (bucketPolicy "dev" 1700000000000) with
  | Some (VOut policy) => resolve (fun _ _ => "arn:aws:s3:::b") policy
  | _ => EmptyString
  end
  = "{" ++ q "Version" ++ ":" ++ q "2012-10-17" ++ ","
        ++ q "Statement" ++ ":[{"
        ++ q "Sid" ++ ":" ++ q "AllowSnowflakeAccess" ++ ","
        ++ q "Effect" ++ ":" ++ q "Allow" ++ ","
        ++ q "Principal" ++ ":" ++ q "*" ++ ","
        ++ q "Action" ++ ":[" ++ q "s3:GetObject" ++ "," ++ q "s3:GetObjectVersion"
        ++ "," ++ q "s3:ListBucket" ++ "],"
        ++ q "Resource" ++ ":[" ++ q "arn:aws:s3:::b" ++ "," ++ q "arn:aws:s3:::b/*"
        ++ "]}]}".
Proof. reflexivity. Qed.

(* ------------------------------------------------------------------------ *)
(** ** The table                                                             *)
(* ------------------------------------------------------------------------ *)

(** C9: the table descriptor lists eleven columns in the order written, from
    [VENDOR_ID] to [LOADED_AT], each with a name and a type.  The first ten
    column objects have the members [name] and [type] and nothing else;
    [LOADED_AT] alone has a [default] member, and it is the expression
    [CURRENT_TIMESTAMP()]. *)
Theorem taxi_table_columns :
  map (fun c => (col_name c, col_type c)) (columns taxiTable)
  = [ (Some "VENDOR_ID", Some "NUMBER");
      (Some "PICKUP_DATETIME", Some "TIMESTAMP");
      (Some "DROPOFF_DATETIME", Some "TIMESTAMP");
      (Some "PASSENGER_COUNT", Some "NUMBER");
      (Some "TRIP_DISTANCE", Some "FLOAT");
      (Some "PICKUP_LOCATION_ID", Some "NUMBER");
      (Some "DROPOFF_LOCATION_ID", Some "NUMBER");
      (Some "FARE_AMOUNT", Some "FLOAT");
      (Some "TIP_AMOUNT", Some "FLOAT");
      (Some "TOTAL_AMOUNT", Some "FLOAT");
      (Some "LOADED_AT", Some "TIMESTAMP") ]
  /\ List.length (columns taxiTable) = 11
  /\ option_map col_name (hd_error (columns taxiTable)) = Some (Some "VENDOR_ID")
  /\ col_name (last (columns taxiTable) (mkColumn None None None)) = Some "LOADED_AT"
  /\ map keys (raw_columns taxiTable)
     = (repeat ["name"; "type"] 10 ++ [["name"; "type"; "default"]])%list
  /\ map col_default (columns taxiTable)
     = (repeat None 10
        ++ [Some (VObj [("expression", str "CURRENT_TIMESTAMP()")])])%list
  /\ filter has_default (columns taxiTable)
     = [mkColumn (Some "LOADED_AT") (Some "TIMESTAMP")
          (Some (VObj [("expression", str "CURRENT_TIMESTAMP()")]))]
  /\ map default_expression (filter has_default (columns taxiTable))
     = [Some "CURRENT_TIMESTAMP()"]
  /\ (forall environment now,
        nth_error (program environment now) 11 = Some taxiTable).
Proof.
  repeat split.
Qed.

(* ------------------------------------------------------------------------ *)
(** ** The exports                                                           *)
(* ------------------------------------------------------------------------ *)

(** C7, as stated, fails: the module's exports are not one flat mapping, and
    they hold an eleventh value, the [instructions] text, besides the ten
    identifiers. *)
Lemma exports_are_not_a_flat_identifier_map :
  ~ flat_surface_of (exports "dev" 1700000000000) (identifiers "dev" 1700000000000)
  /\ is_flat (exports "dev" 1700000000000) = false
  /\ In (instructions "dev" 1700000000000)
        (map snd (exported (exports "dev" 1700000000000)))
  /\ ~ In (instructions "dev" 1700000000000) (identifiers "dev" 1700000000000).
Proof.
  split; [|split; [|split]].
  - intros [H _]. discriminate H.
  - reflexivity.
  - simpl. tauto.
  - simpl. intros H.
    repeat (destruct H as [H|H]; [discriminate H|]). exact H.
Qed.

(** C7, amended: the module exports three values.  [awsOutputs] and
    [snowflakeOutputs] are mappings whose ten entries are exactly the bucket
    name and ARN, the role ARN and name, and the warehouse, database, schema,
    stage, table and storage-integration names, each bound to that attribute
    of its resource; [instructions] is a text interpolated from the bucket,
    warehouse, database and schema names. *)
Theorem exported_surface (environment : string) (now : Z) :
  map fst (exports environment now) = ["awsOutputs"; "snowflakeOutputs"; "instructions"]
  /\ exported (exports environment now)
     = [ (["awsOutputs"; "bucketName"], Attr (rname (dataBucket environment now)) "bucket");
         (["awsOutputs"; "bucketArn"], Attr (rname (dataBucket environment now)) "arn");
         (["awsOutputs"; "roleArn"], Attr (rname (snowflakeRole environment)) "arn");
         (["awsOutputs"; "roleName"], Attr (rname (snowflakeRole environment)) "name");
         (["snowflakeOutputs"; "warehouseName"], Attr (rname warehouse) "name");
         (["snowflakeOutputs"; "databaseName"], Attr (rname database) "name");
         (["snowflakeOutputs"; "schemaName"], Attr (rname schema) "name");
         (["snowflakeOutputs"; "stageName"], Attr (rname (s3Stage environment now)) "name");
         (["snowflakeOutputs"; "tableName"], Attr (rname taxiTable) "name");
         (["snowflakeOutputs"; "storageIntegrationName"],
          Attr (rname (storageIntegration environment now)) "name");
         (["instructions"], instructions environment now) ]
  /\ firstn 10 (map snd (exported (exports environment now))) = identifiers environment now
  /\ is_literal (instructions environment now) = false
  /\ refs (instructions environment now)
     = [ (rname (dataBucket environment now), "bucket");
         (rname (dataBucket environment now), "bucket");
         (rname warehouse, "name");
         (rname database, "name");
         (rname schema, "name") ]
  /\ forallb (fun o => forallb (fun ra => mem (fst ra) (map rname (program environment now)))
                         (refs o))
       (map snd (exported (exports environment now))) = true.
Proof.
  repeat split.
Qed.

(* ------------------------------------------------------------------------ *)
(** * Further properties of the program                                      *)
(* ------------------------------------------------------------------------ *)

(** ** More facts about text *)

Lemma prefix_append (a b c : string) :
  String.prefix b c = true -> String.prefix (a ++ b) (a ++ c) = true.
Proof.
  intros H. induction a as [|x a IH]; simpl.
  - exact H.
  - destruct (ascii_dec x x) as [_|N]; [exact IH | now elim N].
Qed.

Lemma prefix_split (a s : string) :
  String.prefix a s = true -> exists t, s = a ++ t.
Proof.
  revert s. induction a as [|x a IH]; intros s H.
  - exists s. reflexivity.
  - destruct s as [|y s]; simpl in H; [discriminate|].
    destruct (ascii_dec x y) as [->|_]; [|discriminate].
    destruct (IH s H) as [t ->]. exists t. reflexivity.
Qed.

Lemma contains_app_r (n x y : string) : contains n y -> contains n (x ++ y).
Proof.
  intros [pre [post ->]]. exists (x ++ pre), post. now rewrite append_assoc.
Qed.

Lemma contains_app_l (n x y : string) : contains n x -> contains n (x ++ y).
Proof.
  intros [pre [post ->]]. exists pre, (post ++ y). now rewrite !append_assoc.
Qed.

Lemma occurs_contains (n s : string) : occurs n s = true -> contains n s.
Proof.
  induction s as [|c s IH]; cbn [occurs]; intros H.
  - apply orb_prop in H as [H|H]; [|discriminate].
    destruct (prefix_split _ _ H) as [t E]. exists EmptyString, t. exact E.
  - apply orb_prop in H as [H|H].
    + destruct (prefix_split _ _ H) as [t E]. exists EmptyString, t. exact E.
    + apply (contains_app_r n (String c EmptyString) s). auto.
Qed.

(** A text that straddles the seam of two others. *)
Lemma contains_across (a b x0 y1 : string) :
  contains (a ++ b) ((x0 ++ a) ++ b ++ y1).
Proof.
  exists x0, y1. now rewrite !append_assoc.
Qed.

Lemma digits_uint (d : uint) : all_chars bucket_char (NilEmpty.string_of_uint d) = true.
Proof.
  induction d; simpl; auto.
Qed.

Lemma digits_number (n : Z) :
  (0 <= n)%Z -> all_chars bucket_char (JS.number_to_string n) = true.
Proof.
  intros Hn. unfold JS.number_to_string.
  destruct n as [|p|p]; simpl.
  - reflexivity.
  - apply digits_uint.
  - lia.
Qed.

(** [toUpperCase] turns no character into a dash and no dash into anything
    else. *)
Lemma upper_char_dash (c : ascii) :
  Ascii.eqb (JS.upper_char c) "-" = Ascii.eqb c "-".
Proof.
  destruct c as [[|] [|] [|] [|] [|] [|] [|] [|]]; reflexivity.
Qed.

Lemma toUpperCase_no_dash (s : string) : no_dash (JS.toUpperCase s) = no_dash s.
Proof.
  induction s as [|c s IH]; simpl; [reflexivity|].
  now rewrite upper_char_dash, IH.
Qed.

(** ** Reading back what [JSON.stringify] quotes *)

Lemma read_escape_char (c : ascii) (rest : string) :
  read_string (JSON.escape_char c ++ rest) = read_more c (read_string rest).
Proof.
  destruct c as [[|] [|] [|] [|] [|] [|] [|] [|]]; reflexivity.
Qed.

Lemma read_escape (s rest : string) :
  read_string (JSON.escape s ++ JS.dquote ++ rest) = Some (s, rest).
Proof.
  induction s as [|c s IH].
  - reflexivity.
  - cbn [JSON.escape]. rewrite append_assoc, read_escape_char, IH. reflexivity.
Qed.

(** The token [JSON.stringify] writes for a string is read back as that
    string, whatever follows it. *)
Lemma read_quote (s rest : string) :
  exists body, JSON.quote s ++ rest = JS.dquote ++ body
               /\ read_string body = Some (s, rest).
Proof.
  exists (JSON.escape s ++ JS.dquote ++ rest). split.
  - unfold JSON.quote. now rewrite !append_assoc.
  - apply read_escape.
Qed.

Lemma escape_inj (s1 s2 rest1 rest2 : string) :
  JSON.escape s1 ++ JS.dquote ++ rest1 = JSON.escape s2 ++ JS.dquote ++ rest2 ->
  s1 = s2 /\ rest1 = rest2.
Proof.
  intros H. apply (f_equal read_string) in H.
  rewrite !read_escape in H. injection H as -> ->. now split.
Qed.

Lemma quote_inj (s1 s2 rest1 rest2 : string) :
  JSON.quote s1 ++ rest1 = JSON.quote s2 ++ rest2 -> s1 = s2 /\ rest1 = rest2.
Proof.
  intros H.
  destruct (read_quote s1 rest1) as [b1 [E1 R1]].
  destruct (read_quote s2 rest2) as [b2 [E2 R2]].
  rewrite E1, E2 in H. apply append_inv_head in H. subst b2.
  rewrite R1 in R2. injection R2 as -> ->. now split.
Qed.

(* ------------------------------------------------------------------------ *)
(** ** The storage integration and the stage                                 *)
(* ------------------------------------------------------------------------ *)

(** X1: the stage is bound to the storage integration by name, the
    integration allows a single location, and whatever bucket name the engine
    reports, the stage's URL lies under that location. *)
Theorem stage_url_within_allowed_location
    (environment : string) (now : Z) (rho : string -> string -> string) :
  exists location url : Output,
    prop "storageAllowedLocations" (storageIntegration environment now)
      = Some (VArr [VOut location])
    /\ prop "url" (s3Stage environment now) = Some (VOut url)
    /\ prop "storageIntegration" (s3Stage environment now)
       = Some (VOut (attr (storageIntegration environment now) "name"))
    /\ refs location = refs url
    /\ resolve rho location = "s3://" ++ rho (rname (dataBucket environment now)) "bucket" ++ "/"
    /\ String.prefix (resolve rho location) (resolve rho url) = true.
Proof.
  do 2 eexists.
  split; [reflexivity|]. split; [reflexivity|]. split; [reflexivity|].
  split; [reflexivity|]. split; [reflexivity|].
  cbn [resolve].
  apply (prefix_append "s3://").
  apply prefix_append. reflexivity.
Qed.

(* ------------------------------------------------------------------------ *)
(** ** The role policy                                                       *)
(* ------------------------------------------------------------------------ *)

(** X2: the role policy is attached to the role by reference, and whatever
    ARN the engine reports for the bucket, it is the text of a one-statement
    identity policy, without principal, on the same two resources as the
    bucket policy; it allows every action the bucket policy allows and
    [s3:GetBucketLocation] besides.  The text handed to the engine is
    written out, with the ARN as a quoted JSON string. *)
Theorem role_policy_covers_bucket_policy
    (environment : string) (now : Z) (rho : string -> string -> string) :
  exists (policy : Output) (granted shared : JSON.t),
    prop "role" (snowflakePolicy environment now)
      = Some (VOut (attr (snowflakeRole environment) "id"))
    /\ prop "policy" (snowflakePolicy environment now) = Some (VOut policy)
    /\ refs policy = [(rname (dataBucket environment now), "arn")]
    /\ resolve rho policy
       = JSON.stringify
           (snowflakePolicyDocument (Some (rho (rname (dataBucket environment now)) "arn")))
    /\ statements
         (snowflakePolicyDocument (Some (rho (rname (dataBucket environment now)) "arn")))
       = [granted]
    /\ statements
         (bucketPolicyDocument (Some (rho (rname (dataBucket environment now)) "arn")))
       = [shared]
    /\ JSON.field "Effect" granted = Some (JSON.JStr "Allow")
    /\ JSON.field "Principal" granted = None
    /\ resources granted = resources shared
    /\ resources granted
       = [ rho (rname (dataBucket environment now)) "arn";
           rho (rname (dataBucket environment now)) "arn" ++ "/*" ]
    /\ (forall a, In a (actions shared) -> In a (actions granted))
    /\ actions granted = (actions shared ++ ["s3:GetBucketLocation"])%list
    /\ resolve rho policy
       = "{" ++ q "Version" ++ ":" ++ q "2012-10-17" ++ ","
             ++ q "Statement" ++ ":[{"
             ++ q "Effect" ++ ":" ++ q "Allow" ++ ","
             ++ q "Action" ++ ":[" ++ q "s3:GetObject" ++ ","
             ++ q "s3:GetObjectVersion" ++ "," ++ q "s3:ListBucket" ++ ","
             ++ q "s3:GetBucketLocation" ++ "],"
             ++ q "Resource" ++ ":["
             ++ JSON.quote (rho (rname (dataBucket environment now)) "arn") ++ ","
             ++ JSON.quote (rho (rname (dataBucket environment now)) "arn" ++ "/*")
             ++ "]}]}".
Proof.
  do 3 eexists.
  split; [reflexivity|]. split; [reflexivity|]. split; [reflexivity|].
  split; [reflexivity|]. split; [reflexivity|]. split; [reflexivity|].
  split; [reflexivity|]. split; [reflexivity|]. split; [reflexivity|].
  split; [reflexivity|]. split; [|split; [reflexivity|]].
  - intros a H. simpl in H |- *. tauto.
  - unfold JSON.quote.
    repeat (progress (cbn; rewrite ?append_assoc)). reflexivity.
Qed.

(** X3: the bucket policy and the role policy are different texts for
    different bucket ARNs: each text determines the ARN it was written
    for. *)
Theorem policy_text_determines_arn
    (environment : string) (now : Z) (rho1 rho2 : string -> string -> string) :
  exists bucket_text role_text : Output,
    prop "policy" (bucketPolicy environment now) = Some (VOut bucket_text)
    /\ prop "policy" (snowflakePolicy environment now) = Some (VOut role_text)
    /\ (resolve rho1 bucket_text = resolve rho2 bucket_text
        <-> rho1 (rname (dataBucket environment now)) "arn"
            = rho2 (rname (dataBucket environment now)) "arn")
    /\ (resolve rho1 role_text = resolve rho2 role_text
        <-> rho1 (rname (dataBucket environment now)) "arn"
            = rho2 (rname (dataBucket environment now)) "arn").
Proof.
  do 2 eexists.
  split; [reflexivity|]. split; [reflexivity|].
  split; split.
  - intros H. cbn in H.
    repeat match type of H with
           | String _ _ = String _ _ => injection H as H
           end.
    rewrite !append_assoc in H. now apply escape_inj in H.
  - intros H. cbn in H |- *. now rewrite H.
  - intros H. cbn in H.
    repeat match type of H with
           | String _ _ = String _ _ => injection H as H
           end.
    rewrite !append_assoc in H. now apply escape_inj in H.
  - intros H. cbn in H |- *. now rewrite H.
Qed.

(* ------------------------------------------------------------------------ *)
(** ** What a descriptor's arguments depend on                               *)
(* ------------------------------------------------------------------------ *)

Lemma resolve_agrees (rho1 rho2 : string -> string -> string) (o : Output) :
  (forall r a, In (r, a) (refs o) -> rho1 r a = rho2 r a) ->
  resolve rho1 o = resolve rho2 o.
Proof.
  induction o as [s | r a | head holes IH | args f IH] using Output_nested_ind;
    intros H.
  - reflexivity.
  - apply H. left. reflexivity.
  - cbn [resolve]. f_equal.
    cbn [refs] in H. revert H.
    induction IH as [|[h s] l Hh _ IHl]; intros H; [reflexivity|].
    cbn [fst] in Hh.
    rewrite IHl.
    + rewrite (Hh (fun r a Hin => H r a (in_or_app _ _ _ (or_introl Hin)))).
      reflexivity.
    + intros r a Hin. apply H. apply in_or_app. right. exact Hin.
  - cbn [resolve]. f_equal.
    cbn [refs] in H. revert H.
    induction IH as [|h l Hh _ IHl]; intros H; [reflexivity|].
    cbn [map]. rewrite IHl.
    + rewrite (Hh (fun r a Hin => H r a (in_or_app _ _ _ (or_introl Hin)))).
      reflexivity.
    + intros r a Hin. apply H. apply in_or_app. right. exact Hin.
Qed.

Lemma resolve_value_agrees (rho1 rho2 : string -> string -> string) (v : Value) :
  (forall r a, In (r, a) (value_refs v) -> rho1 r a = rho2 r a) ->
  resolve_value rho1 v = resolve_value rho2 v.
Proof.
  induction v as [o | b | n | items IH | fields IH] using Value_nested_ind;
    intros H.
  - cbn [resolve_value]. now rewrite (resolve_agrees rho1 rho2 o H).
  - reflexivity.
  - reflexivity.
  - cbn [resolve_value]. f_equal.
    cbn [value_refs] in H. revert H.
    induction IH as [|x l Hx _ IHl]; intros H; [reflexivity|].
    cbn [map]. rewrite IHl.
    + rewrite (Hx (fun r a Hin => H r a (in_or_app _ _ _ (or_introl Hin)))).
      reflexivity.
    + intros r a Hin. apply H. apply in_or_app. right. exact Hin.
  - cbn [resolve_value]. f_equal.
    cbn [value_refs] in H. revert H.
    induction IH as [|[k x] l Hx _ IHl]; intros H; [reflexivity|].
    rewrite IHl.
    + cbn [snd] in Hx.
      rewrite (Hx (fun r a Hin => H r a (in_or_app _ _ _ (or_introl Hin)))).
      reflexivity.
    + intros r a Hin. apply H. apply in_or_app. right. exact Hin.
Qed.

Ltac read_key H k :=
  let E := fresh "E" in
  assert (E := f_equal (fun v => match v with
                                 | VObj fields => lookup k fields
                                 | _ => None
                                 end) H);
  cbn in E; injection E as E;
  first [ rewrite !append_assoc in E; apply escape_inj in E; destruct E as [E _]
        | apply append_inv_tail in E
        | idtac ].

Ltac by_reference Href :=
  cbn in Href;
  repeat (destruct Href as [Href|Href]; [injection Href as <- <-; assumption|]);
  destruct Href.

(** X4: for each of the twelve descriptors, the arguments its provider
    receives change exactly with the attributes it refers to: two engine
    states give the same resolved arguments if and only if they agree on
    every attribute the descriptor references.  No reference is ignored, by
    an interpolation or by an [apply] callback, and nothing else in the
    engine's state reaches the arguments. *)
Theorem resolved_args_track_references
    (environment : string) (now : Z) (r : Resource)
    (rho1 rho2 : string -> string -> string) :
  In r (program environment now) ->
  (resolved_args rho1 r = resolved_args rho2 r
   <-> forall d a, In (d, a) (value_refs (VObj (rargs r))) -> rho1 d a = rho2 d a).
Proof.
  intros Hin. split.
  - intros H d a Href. unfold resolved_args in H. simpl in Hin.
    destruct Hin as [<-|[<-|[<-|[<-|[<-|[<-|[<-|[<-|[<-|[<-|[<-|[<-|[]]]]]]]]]]]]].
    + by_reference Href.
    + read_key H "bucket". read_key H "policy". by_reference Href.
    + by_reference Href.
    + read_key H "role". read_key H "policy". by_reference Href.
    + by_reference Href.
    + by_reference Href.
    + read_key H "database". by_reference Href.
    + read_key H "storageAwsRoleArn". read_key H "storageAllowedLocations".
      by_reference Href.
    + read_key H "database". read_key H "schema". by_reference Href.
    + read_key H "database". read_key H "schema". by_reference Href.
    + read_key H "database". read_key H "schema". read_key H "url".
      read_key H "storageIntegration". by_reference Href.
    + read_key H "database". read_key H "schema". by_reference Href.
  - intros H. unfold resolved_args. now apply resolve_value_agrees.
Qed.

(** The stage of the stack [dev] under two engine states that differ only
    in their ARNs. *)
Lemma resolved_args_track_references_witness :
  resolved_args (fun d a => if String.eqb a "arn" then "x" else d ++ "." ++ a)
    (s3Stage "dev" 1700000000000)
  = resolved_args (fun d a => if String.eqb a "arn" then "y" else d ++ "." ++ a)
      (s3Stage "dev" 1700000000000)
  <-> forall d a,
        In (d, a) (value_refs (VObj (rargs (s3Stage "dev" 1700000000000)))) ->
        (if String.eqb a "arn" then "x" else d ++ "." ++ a)
        = (if String.eqb a "arn" then "y" else d ++ "." ++ a).
Proof.
  apply (resolved_args_track_references "dev" 1700000000000
           (s3Stage "dev" 1700000000000)
           (fun d a => if String.eqb a "arn" then "x" else d ++ "." ++ a)
           (fun d a => if String.eqb a "arn" then "y" else d ++ "." ++ a)).
  simpl. tauto.
Defined.

(** X5: the bucket, the role, the warehouse and the database are the
    descriptors that refer to nothing, and their arguments are the same under
    every engine state; the other eight refer to the resources listed. *)
Theorem direct_dependencies (environment : string) (now : Z) :
  map rname
    (filter (fun r => match deps r with [] => true | _ :: _ => false end)
       (program environment now))
  = [ rname (dataBucket environment now); rname (snowflakeRole environment);
      rname warehouse; rname database ]
  /\ (forall r rho1 rho2,
        In r (program environment now) -> deps r = [] ->
        resolved_args rho1 r = resolved_args rho2 r)
  /\ map (fun r => (rname r, nodup string_dec (deps r)))
       (filter (fun r => match deps r with [] => false | _ :: _ => true end)
          (program environment now))
     = [ (rname (bucketPolicy environment now), [rname (dataBucket environment now)]);
         (rname (snowflakePolicy environment now),
          [rname (snowflakeRole environment); rname (dataBucket environment now)]);
         (rname schema, [rname database]);
         (rname (storageIntegration environment now),
          [rname (snowflakeRole environment); rname (dataBucket environment now)]);
         (rname csvFileFormat, [rname database; rname schema]);
         (rname parquetFileFormat, [rname database; rname schema]);
         (rname (s3Stage environment now),
          [rname database; rname schema; rname (dataBucket environment now);
           rname (storageIntegration environment now)]);
         (rname taxiTable, [rname database; rname schema]) ].
Proof.
  split; [reflexivity|]. split; [|reflexivity].
  intros r rho1 rho2 _ Hd.
  unfold resolved_args. apply resolve_value_agrees.
  intros d a Hin.
  apply (in_map fst) in Hin. fold (deps r) in Hin. rewrite Hd in Hin. destruct Hin.
Qed.

(* ------------------------------------------------------------------------ *)
(** ** Names and placement of the Snowflake objects                          *)
(* ------------------------------------------------------------------------ *)

(** X6: the two file formats, the stage and the table are the objects placed
    in a schema, and each is placed by reference in the declared database
    and the declared schema, which itself is placed in that database; so
    under every engine state all five receive the same database name. *)
Theorem schema_objects_colocated
    (environment : string) (now : Z) (rho : string -> string -> string) :
  map rname (filter schema_level (program environment now))
  = [ rname csvFileFormat; rname parquetFileFormat;
      rname (s3Stage environment now); rname taxiTable ]
  /\ map (fun r => (prop "database" r, prop "schema" r))
       (filter schema_level (program environment now))
     = repeat (Some (VOut (attr database "name")), Some (VOut (attr schema "name"))) 4
  /\ prop "database" schema = Some (VOut (attr database "name"))
  /\ map (fun r => lookup "database"
                     match resolved_args rho r with VObj fields => fields | _ => [] end)
       (schema :: filter schema_level (program environment now))
     = repeat (Some (str (rho (rname database) "name"))) 5.
Proof.
  repeat split.
Qed.

(** X7: within one deployment no two objects are created under the same
    name, whatever the stack name and the clock reading: the ten names the
    program assigns are pairwise different. *)
Theorem names_distinct_within_deployment (environment : string) (now : Z) :
  List.length (declared_names (program environment now)) = 10
  /\ NoDup (declared_names (program environment now)).
Proof.
  split; [reflexivity|].
  cbn.
  repeat (apply NoDup_cons;
          [ cbn; intros H;
            repeat (destruct H as [H|H]; [discriminate H|]); exact H | ]).
  apply NoDup_nil.
Qed.

(** X8: the bucket name adds nothing but lower-case letters, digits and
    hyphens: when the stack name is made of those characters and the clock
    reading is not before the epoch, so is the bucket name. *)
Theorem bucket_name_charset (environment : string) (now : Z) :
  all_chars bucket_char environment = true -> (0 <= now)%Z ->
  exists name,
    physical_name (dataBucket environment now) = Some name
    /\ all_chars bucket_char name = true
    /\ String.length name
       = 20 + String.length environment + String.length (JS.number_to_string now).
Proof.
  intros He Hn. eexists. split; [apply bucket_name_eq|]. split.
  - rewrite !all_chars_append, He, (digits_number now Hn). reflexivity.
  - rewrite !length_append. cbn. lia.
Qed.

(** The stack [dev] at a reading of late 2023. *)
Lemma bucket_name_charset_witness :
  exists name,
    physical_name (dataBucket "dev" 1700000000000) = Some name
    /\ all_chars bucket_char name = true
    /\ String.length name
       = 20 + String.length "dev" + String.length (JS.number_to_string 1700000000000).
Proof.
  apply (bucket_name_charset "dev" 1700000000000).
  - reflexivity.
  - lia.
Defined.

(* ------------------------------------------------------------------------ *)
(** ** The instructions and the setup script                                 *)
(* ------------------------------------------------------------------------ *)

Lemma contains_around (a m c x y : string) :
  (exists x0, x = x0 ++ a) -> String.prefix c y = true ->
  contains (a ++ m ++ c) (x ++ m ++ y).
Proof.
  intros [x0 ->] Hc. destruct (prefix_split _ _ Hc) as [y1 ->].
  exists x0, y1. now rewrite !append_assoc.
Qed.

Ltac skip_segment := apply contains_app_r.

Ltac at_seam a m c :=
  apply (contains_around a m c);
  [ match goal with
    | |- exists x0, ?x = x0 ++ ?s =>
        exists (substring 0 (String.length x - String.length s) x); reflexivity
    end
  | reflexivity ].

Lemma url_in_line (pre bucket post : string) :
  pre ++ ("s3://" ++ bucket ++ "/raw/" ++ "") ++ post
  = (pre ++ "s3://") ++ bucket ++ "/raw/" ++ post.
Proof.
  repeat (progress (cbn; rewrite ?append_assoc)). reflexivity.
Qed.

(** X9: the text printed after deployment agrees with the descriptors,
    whatever names the engine reports.  It has two upload lines, each a
    whole line that copies a file to the stage's URL and ends there; three
    [USE] lines that name the warehouse, database and schema the engine
    created; and a [COPY INTO] block whose three lines name the table, the
    stage and the Parquet file format as the descriptors name them. *)
Theorem instructions_match_resources
    (environment : string) (now : Z) (rho : string -> string -> string) :
  exists (url : Output) (table stage format : string),
    prop "url" (s3Stage environment now) = Some (VOut url)
    /\ physical_name taxiTable = Some table
    /\ physical_name (s3Stage environment now) = Some stage
    /\ physical_name parquetFileFormat = Some format
    /\ contains (JS.nl ++ "   aws s3 cp data/sample.csv " ++ resolve rho url ++ JS.nl)
         (resolve rho (instructions environment now))
    /\ contains (JS.nl ++ "   aws s3 cp yellow_tripdata_2024-01.parquet "
                 ++ resolve rho url ++ JS.nl)
         (resolve rho (instructions environment now))
    /\ contains (JS.nl ++ "   USE WAREHOUSE " ++ rho (rname warehouse) "name" ++ ";" ++ JS.nl)
         (resolve rho (instructions environment now))
    /\ contains (JS.nl ++ "   USE DATABASE " ++ rho (rname database) "name" ++ ";" ++ JS.nl)
         (resolve rho (instructions environment now))
    /\ contains (JS.nl ++ "   USE SCHEMA " ++ rho (rname schema) "name" ++ ";" ++ JS.nl)
         (resolve rho (instructions environment now))
    /\ contains (JS.nl ++ "   COPY INTO " ++ table ++ JS.nl
                 ++ "   FROM @" ++ stage ++ JS.nl
                 ++ "   FILE_FORMAT = " ++ format ++ JS.nl)
         (resolve rho (instructions environment now)).
Proof.
  do 4 eexists.
  split; [reflexivity|]. split; [reflexivity|].
  split; [reflexivity|]. split; [reflexivity|].
  unfold instructions. cbn [resolve].
  set (B := resolve rho (attr (dataBucket environment now) "bucket")).
  set (W := resolve rho (attr warehouse "name")).
  set (D := resolve rho (attr database "name")).
  set (S := resolve rho (attr schema "name")).
  change (rho (rname warehouse) "name") with W.
  change (rho (rname database) "name") with D.
  change (rho (rname schema) "name") with S.
  rewrite !url_in_line.
  repeat split.
  - at_seam (JS.nl ++ "   aws s3 cp data/sample.csv s3://") B ("/raw/" ++ JS.nl).
  - do 2 skip_segment.
    at_seam (JS.nl ++ "   aws s3 cp yellow_tripdata_2024-01.parquet s3://") B
            ("/raw/" ++ JS.nl).
  - do 4 skip_segment. at_seam (JS.nl ++ "   USE WAREHOUSE ") W (";" ++ JS.nl).
  - do 6 skip_segment. at_seam (JS.nl ++ "   USE DATABASE ") D (";" ++ JS.nl).
  - do 8 skip_segment. at_seam (JS.nl ++ "   USE SCHEMA ") S (";" ++ JS.nl).
  - do 10 skip_segment. apply occurs_contains. reflexivity.
Qed.

Lemma no_dash_append (a b : string) : no_dash (a ++ b) = no_dash a && no_dash b.
Proof.
  induction a as [|c a IH]; simpl; [reflexivity|].
  now rewrite IH, andb_assoc.
Qed.

(** X10: of the seven objects [snowflake/setup.sql] names, the program
    declares four under that name: the schema, the table, the stage and the
    Parquet format.  The warehouse, the database and the storage integration
    are declared under names that keep the hyphen of the project name, which
    [toUpperCase] never removes, where the script writes an underscore. *)
Theorem setup_script_references (environment : string) (now : Z) :
  map (declares (program environment now)) SetupSql.references
  = [false; false; true; true; true; true; false]
  /\ map (declares (program environment now))
       [ (snowflake_Warehouse, "DATA-PIPELINE_WH");
         (snowflake_Database, "DATA-PIPELINE_DB");
         (snowflake_StorageIntegration, "DATA-PIPELINE_S3_INT") ]
     = [true; true; true]
  /\ (forall project suffix,
        no_dash (JS.toUpperCase project ++ suffix) = no_dash project && no_dash suffix)
  /\ map (fun r => option_map no_dash (physical_name r))
       [warehouse; database; storageIntegration environment now]
     = [Some false; Some false; Some false]
  /\ map (fun ref => no_dash (snd ref)) SetupSql.references
     = [true; true; true; true; true; true; true].
Proof.
  split; [reflexivity|]. split; [reflexivity|]. split; [|split; reflexivity].
  intros project suffix. now rewrite no_dash_append, toUpperCase_no_dash.
Qed.

(* ------------------------------------------------------------------------ *)
(** ** The stage location of an environment                                  *)
(* ------------------------------------------------------------------------ *)

Lemma echoed_stage_url
    (environment : string) (now : Z) (rho : string -> string -> string) :
  echoes rho (program environment now) ->
  resolve rho (Interpolate "s3://" [(attr (dataBucket environment now) "bucket", "/raw/")])
  = "s3://" ++ (projectName ++ "-data-" ++ environment ++ "-" ++ JS.number_to_string now)
      ++ "/raw/".
Proof.
  intros H.
  assert (E : rho (rname (dataBucket environment now)) "bucket"
              = projectName ++ "-data-" ++ environment ++ "-" ++ JS.number_to_string now).
  { apply (H (dataBucket environment now)).
    - left. reflexivity.
    - apply bucket_name_eq. }
  cbn [resolve attr]. rewrite E. now rewrite !append_assoc.
Qed.

(** X11: when the engine creates every object under the name the program
    declares, the stage reads from [s3://<bucket name>/raw/]; two different
    environments, deployed at clock readings from the epoch on, read from
    different locations although their stages carry the same name. *)
Theorem stage_location_per_environment
    (e1 e2 : string) (t1 t2 : Z) (rho1 rho2 : string -> string -> string) :
  echoes rho1 (program e1 t1) -> echoes rho2 (program e2 t2) ->
  e1 <> e2 -> (0 <= t1)%Z -> (0 <= t2)%Z ->
  exists url1 url2 : Output,
    prop "url" (s3Stage e1 t1) = Some (VOut url1)
    /\ prop "url" (s3Stage e2 t2) = Some (VOut url2)
    /\ resolve rho1 url1
       = "s3://" ++ (projectName ++ "-data-" ++ e1 ++ "-" ++ JS.number_to_string t1) ++ "/raw/"
    /\ resolve rho1 url1 <> resolve rho2 url2
    /\ physical_name (s3Stage e1 t1) = physical_name (s3Stage e2 t2).
Proof.
  intros H1 H2 Hne Ht1 Ht2. do 2 eexists.
  split; [reflexivity|]. split; [reflexivity|].
  rewrite (echoed_stage_url e1 t1 rho1 H1), (echoed_stage_url e2 t2 rho2 H2).
  split; [reflexivity|]. split; [|reflexivity].
  intros E. apply append_inv_head, append_inv_tail in E.
  apply Hne.
  apply (bucket_name_inj e1 e2 t1 t2 Ht1 Ht2).
  rewrite !bucket_name_eq. now rewrite E.
Qed.

Lemma echo_echoes (environment : string) (now : Z) :
  echoes (echo (program environment now)) (program environment now).
Proof.
  intros r n Hin Hn. simpl in Hin.
  repeat (destruct Hin as [<-|Hin];
          [ cbv in Hn; try discriminate Hn; injection Hn as <-; reflexivity | ]).
  destruct Hin.
Qed.

(** The stacks [dev] and [prod] under the engine state [echo]. *)
Lemma stage_location_per_environment_witness :
  exists url1 url2 : Output,
    prop "url" (s3Stage "dev" 1700000000000) = Some (VOut url1)
    /\ prop "url" (s3Stage "prod" 1700000000001) = Some (VOut url2)
    /\ resolve (echo (program "dev" 1700000000000)) url1
       = "s3://" ++ (projectName ++ "-data-" ++ "dev" ++ "-"
                       ++ JS.number_to_string 1700000000000) ++ "/raw/"
    /\ resolve (echo (program "dev" 1700000000000)) url1
       <> resolve (echo (program "prod" 1700000000001)) url2
    /\ physical_name (s3Stage "dev" 1700000000000)
       = physical_name (s3Stage "prod" 1700000000001).
Proof.
  apply (stage_location_per_environment "dev" "prod" 1700000000000 1700000000001).
  - apply echo_echoes.
  - apply echo_echoes.
  - discriminate.
  - lia.
  - lia.
Defined.

(* ------------------------------------------------------------------------ *)
(** ** The exported names                                                    *)
(* ------------------------------------------------------------------------ *)

Ltac echoed H r :=
  let E := fresh "E" in
  assert (E := H r _ ltac:(simpl; tauto) eq_refl);
  cbn in E.

(** X12: when the engine creates every object under the name the program
    declares, the exported names are the declared names: the six Snowflake
    outputs are the constants of the program, the bucket and role names are
    the names built from the stack name, and only the two ARNs are left to
    the engine. *)
Theorem exported_names_are_declared_names
    (environment : string) (now : Z) (rho : string -> string -> string) :
  echoes rho (program environment now) ->
  map (fun kv => (fst kv, resolve rho (snd kv))) (snowflakeOutputs environment now)
  = [ ("warehouseName", "DATA-PIPELINE_WH");
      ("databaseName", "DATA-PIPELINE_DB");
      ("schemaName", "RAW");
      ("stageName", "S3_STAGE");
      ("tableName", "TAXI_DATA");
      ("storageIntegrationName", "DATA-PIPELINE_S3_INT") ]
  /\ map (fun kv => (fst kv, resolve rho (snd kv))) (awsOutputs environment now)
     = [ ("bucketName",
          projectName ++ "-data-" ++ environment ++ "-" ++ JS.number_to_string now);
         ("bucketArn", rho (rname (dataBucket environment now)) "arn");
         ("roleArn", rho (rname (snowflakeRole environment)) "arn");
         ("roleName", projectName ++ "-snowflake-access-" ++ environment) ].
Proof.
  intros H.
  echoed H (dataBucket environment now).
  echoed H (snowflakeRole environment).
  echoed H warehouse.
  echoed H database.
  echoed H schema.
  echoed H (storageIntegration environment now).
  echoed H (s3Stage environment now).
  echoed H taxiTable.
  split; cbn; repeat f_equal; assumption.
Qed.

(** The stack [dev] under the engine state [echo]. *)
Lemma exported_names_are_declared_names_witness :
  map (fun kv => (fst kv, resolve (echo (program "dev" 1700000000000)) (snd kv)))
    (snowflakeOutputs "dev" 1700000000000)
  = [ ("warehouseName", "DATA-PIPELINE_WH");
      ("databaseName", "DATA-PIPELINE_DB");
      ("schemaName", "RAW");
      ("stageName", "S3_STAGE");
      ("tableName", "TAXI_DATA");
      ("storageIntegrationName", "DATA-PIPELINE_S3_INT") ]
  /\ map (fun kv => (fst kv, resolve (echo (program "dev" 1700000000000)) (snd kv)))
       (awsOutputs "dev" 1700000000000)
     = [ ("bucketName",
          projectName ++ "-data-" ++ "dev" ++ "-" ++ JS.number_to_string 1700000000000);
         ("bucketArn",
          echo (program "dev" 1700000000000) (rname (dataBucket "dev" 1700000000000)) "arn");
         ("roleArn",
          echo (program "dev" 1700000000000) (rname (snowflakeRole "dev")) "arn");
         ("roleName", projectName ++ "-snowflake-access-" ++ "dev") ].
Proof.
  apply (exported_names_are_declared_names "dev" 1700000000000).
  apply echo_echoes.
Defined.
